(** * Cluster survey layer of Grafana Live: [pkg/services/live/survey/survey.go]

    A shallow embedding of the survey caller and of its two handlers, and the
    properties of the request/response protocol, of the leadership fencing and
    of the cross-node aggregation proved about it.

    The Go code talks to five collaborators (the cluster node, the leader
    manager, the bus, the channel-handler getter and the managed-stream
    runner).  Every call to one of them is an event of a small program monad;
    running a program against an environment that answers the events yields
    the function's result together with the trace of the calls it made. *)

From Stdlib Require Import ZArith Strings.String Strings.Ascii Strings.Byte List Sorting.Sorted.
From stdpp Require Import base option list sorting gmap strings pretty.

Local Open Scope Z_scope.
Local Open Scope string_scope.

Set Default Proof Using "Type".

(** ** Go values *)

Abbreviation bytes := (list byte).

(** Go's [error] interface.  The values built in this file are
    [errors.New(msg)], [fmt.Errorf("unexpected survey code: %d", code)] and
    [fmt.Errorf("survey error: %w", err)]; collaborators return values of the
    same type. *)
Inductive error : Type :=
| errors_New (msg : string)
| unexpected_survey_code (code : Z)
| survey_error (err : error).

(** A Go pair [(v, err)] of which [v] is read only when [err == nil]. *)
Inductive result (A : Type) : Type :=
| Ok (a : A)
| Err (err : error).
Arguments Ok {A} a.
Arguments Err {A} err.

(** [centrifuge.SurveyEvent] and [centrifuge.SurveyReply]; [Code] is a
    [uint32], and a nil [Data] is the empty list. *)
Record SurveyEvent := { Op : string; Event_Data : bytes }.
Record SurveyReply := { Code : Z; Data : bytes }.

(** Types and helpers declared in other packages ([managedstream], [models],
    [backend], [live], [orgchannel]), of which this file uses only what is
    listed here.
    - [Rate] is the type of [ManagedChannel.MinuteRate] and [rate_add] its
      [+=]; [ChannelFields] stands for the fields of a [ManagedChannel] that
      this file never names.
    - [SubscribeReply_zero] is [models.SubscribeReply{}].
    - [UserFields] stands for the fields of [models.SignedInUser] other than
      [UserId] and [OrgId]; [UserFields_zero] is their zero value.
    - [Path] is the [Path] field of a parsed [live.Channel]. *)
Class Foreign := {
  Rate : Type;
  rate_add : Rate → Rate → Rate;
  ChannelFields : Type;
  SubscribeReply : Type;
  SubscribeReply_zero : SubscribeReply;
  UserFields : Type;
  UserFields_zero : UserFields;
  ChannelHandler : Type;
  LiveChannel : Type;
  Path : LiveChannel → string;
  PrependOrgID : Z → string → string;
}.

Section Types.
Context `{Foreign}.

(** [managedstream.ManagedChannel]. *)
Record ManagedChannel := {
  Channel : string;
  MinuteRate : Rate;
  channel_fields : ChannelFields;
}.

(** [models.SignedInUser]. *)
Record SignedInUser := {
  UserId : Z;
  OrgId : Z;
  user_fields : UserFields;
}.

(** [models.GetSignedInUserQuery], without its [Result] field, which the
    bus fills in: the answer to [Dispatch] carries it. *)
Record GetSignedInUserQuery := { query_UserId : Z; query_OrgId : Z }.

(** [models.SubscribeEvent]. *)
Record SubscribeEvent := {
  event_Channel : string;
  event_Path : string;
  event_LeadershipID : string;
}.

Record NodeManagedChannelsRequest := { OrgID : Z }.

(** [Channels] is a slice of pointers; its elements are taken to be non-nil,
    as [GetManagedChannels] builds them.  A payload with a JSON null among
    the elements decodes to a slice with a nil pointer, which the loop of
    [CallManagedStreams] dereferences: such payloads are outside this type,
    so [Unmarshal_NodeManagedChannelsResponse] answering [Ok] stands for a
    payload that decodes to non-nil elements only. *)
Record NodeManagedChannelsResponse := { Channels : list ManagedChannel }.

Record PluginSubscribeStreamRequest := {
  req_OrgID : Z;
  req_UserID : Z;
  req_Channel : string;
  req_LeaderNodeID : string;
  req_LeadershipID : string;
}.

Record PluginSubscribeStreamResponse := {
  Status : Z;
  Reply : SubscribeReply;
}.

(** The four values returned by [leader.Manager.GetLeader]. *)
Record LeaderInfo := {
  leader_ok : bool;
  leader_nodeID : string;
  leader_leadershipID : string;
  leader_err : option error;
}.

(** The [interface{}] that [handleSurvey] marshals: the value returned by
    one of the two handlers. *)
Inductive Response : Type :=
| ManagedChannelsAnswer (r : NodeManagedChannelsResponse)
| SubscribeAnswer (r : PluginSubscribeStreamResponse).
End Types.

(** [encoding/json] on the payload types of this file. *)
Class Json `{Foreign} := {
  Unmarshal_NodeManagedChannelsRequest : bytes → result NodeManagedChannelsRequest;
  Unmarshal_NodeManagedChannelsResponse : bytes → result NodeManagedChannelsResponse;
  Unmarshal_PluginSubscribeStreamRequest : bytes → result PluginSubscribeStreamRequest;
  Unmarshal_PluginSubscribeStreamResponse : bytes → result PluginSubscribeStreamResponse;
  Marshal_NodeManagedChannelsRequest : NodeManagedChannelsRequest → result bytes;
  Marshal_PluginSubscribeStreamRequest : PluginSubscribeStreamRequest → result bytes;
  Marshal_Response : Response → result bytes;
}.

(** ** Programs over the collaborators *)

Inductive Level := Debug | Error.

Section Programs.
Context `{Foreign}.

(** One constructor per collaborator method called in this file, indexed by
    the type of what the call returns.  [Range m] is the Go statement
    [for k, v := range m]: the runtime chooses the order in which the
    entries of [m] are visited.  [Callback r] is the [cb(r)] of
    [handleSurvey]. *)
Inductive Ev : Type → Type :=
| GetManagedChannels (orgID : Z) : Ev (result (list ManagedChannel))
| GetLeader (key : string) : Ev LeaderInfo
| Dispatch (query : GetSignedInUserQuery) : Ev (option error * option SignedInUser)
| GetChannelHandler (user : option SignedInUser) (channel : string)
    : Ev (result (ChannelHandler * LiveChannel))
| OnSubscribe (handler : ChannelHandler) (user : option SignedInUser) (e : SubscribeEvent)
    : Ev (result (SubscribeReply * Z))
| Survey (op : string) (data : bytes) (toNodeID : string)
    : Ev (result (gmap string SurveyReply))
| Range {V : Type} (m : gmap string V) : Ev (list (string * V))
| Callback (reply : SurveyReply) : Ev unit.

Inductive prog (A : Type) : Type :=
| Ret (a : A)
| Log (lvl : Level) (msg : string) (k : prog A)
| Call {X : Type} (e : Ev X) (k : X → prog A).
Global Arguments Ret {A} a.
Global Arguments Log {A} lvl msg k.
Global Arguments Call {A X} e k.

Fixpoint bind {A B} (p : prog A) (f : A → prog B) : prog B :=
  match p with
  | Ret a => f a
  | Log lvl msg k => Log lvl msg (bind k f)
  | Call e k => Call e (λ x, bind (k x) f)
  end.

Definition call {X} (e : Ev X) : prog X := Call e Ret.
Definition log (lvl : Level) (msg : string) : prog unit := Log lvl msg (Ret tt).

(** What a run leaves behind: a log line or a collaborator call. *)
Inductive Action : Type :=
| Logged (lvl : Level) (msg : string)
| Called {X : Type} (e : Ev X).

(** The collaborators: how each event is answered in a state of the world
    [W], and the state it leaves. *)
Record Env (W : Type) := { answer : ∀ X, Ev X → W → X * W }.
Global Arguments answer {W} _ {X} _ _.

Record Outcome (W A : Type) := {
  value : A;
  world : W;
  trace : list Action;
}.
Global Arguments value {W A} _.
Global Arguments world {W A} _.
Global Arguments trace {W A} _.

Fixpoint run {W A} (env : Env W) (p : prog A) (w : W) : Outcome W A :=
  match p with
  | Ret a => {| value := a; world := w; trace := [] |}
  | Log lvl msg k =>
      let o := run env k w in
      {| value := value o; world := world o; trace := Logged lvl msg :: trace o |}
  | Call e k =>
      let r := answer env e w in
      let o := run env (k r.1) r.2 in
      {| value := value o; world := world o; trace := Called e :: trace o |}
  end.
End Programs.

Global Instance prog_ret `{Foreign} : MRet prog := λ A, Ret.
Global Instance prog_bind `{Foreign} : MBind prog := λ A B f p, bind p f.

(** ** The code *)

Definition managedStreamsCall := "managed_streams".
Definition pluginSubscribeStream := "plugin_subscribe_stream".

(** Of the [Caller] struct, the collaborators are the events above; the only
    datum read from it is [c.node.ID()]. *)
Record Caller := { node_ID : string }.

(** [sort.Slice(s, less)]: a permutation of [s] in which no element is
    [less] than one before it. *)
Definition sort_Slice {A} (less : A → A → bool) : list A → list A :=
  @merge_sort A (λ a b, less b a = false) (λ a b, decide (less b a = false)).

Section Code.
Context `{Json}.

Definition handleManagedStreams (data : bytes) : prog (result NodeManagedChannelsResponse) :=
  match Unmarshal_NodeManagedChannelsRequest data with
  | Err err => mret (Err err)
  | Ok req =>
      r ← call (GetManagedChannels (OrgID req));
      match r with
      | Err err => mret (Err err)
      | Ok channels => mret (Ok {| Channels := channels |})
      end
  end.

(** The context built with [context.WithTimeout] only bounds how long
    [GetLeader] may take; a lookup that runs out of time is a lookup that
    answers with an error. *)
Definition handlePluginSubscribeStream (c : Caller) (data : bytes)
  : prog (result PluginSubscribeStreamResponse) :=
  match Unmarshal_PluginSubscribeStreamRequest data with
  | Err err => mret (Err err)
  | Ok req =>
      log Debug "Handle plugin subscribe stream survey";;
      if decide (req_LeaderNodeID req ≠ node_ID c) then
        log Debug "Non-leader node";;
        mret (Ok {| Status := 0; Reply := SubscribeReply_zero |})
      else
        l ← call (GetLeader (PrependOrgID (req_OrgID req) (req_Channel req)));
        match leader_err l with
        | Some err =>
            log Error "Error checking leader";;
            mret (Err (errors_New "error checking leader"))
        | None =>
            if decide (leader_ok l = false ∨ leader_leadershipID l ≠ req_LeadershipID req) then
              log Error "Leader changed";;
              mret (Err (errors_New "leader changed"))
            else
              let subscribe (user : option SignedInUser) :=
                g ← call (GetChannelHandler user (req_Channel req));
                match g with
                | Err err =>
                    log Error "Error getting ChannelHandler";;
                    mret (Err err)
                | Ok (handler, parsedChannel) =>
                    s ← call (OnSubscribe handler user
                                {| event_Channel := req_Channel req;
                                   event_Path := Path parsedChannel;
                                   event_LeadershipID := req_LeadershipID req |});
                    match s with
                    | Err err =>
                        log Error "Error calling OnSubscribe handler";;
                        mret (Err err)
                    | Ok (reply, status) =>
                        mret (Ok {| Status := status; Reply := reply |})
                    end
                end in
              if decide (0 < req_UserID req)%Z then
                d ← call (Dispatch {| query_UserId := req_UserID req;
                                      query_OrgId := req_OrgID req |});
                match d.1 with
                | Some err =>
                    log Error "Error getting signed in user";;
                    mret (Err (errors_New "error getting signed in user"))
                | None => subscribe d.2
                end
              else
                subscribe (Some {| UserId := 0; OrgId := req_OrgID req;
                                   user_fields := UserFields_zero |})
        end
  end.

(** [centrifuge.SurveyReply{Code: 1}]. *)
Definition failure : SurveyReply := {| Code := 1; Data := [] |}.

(** The [switch] of [handleSurvey]: the handler of the operation named in
    the event, or "method not found". *)
Definition dispatch (c : Caller) (e : SurveyEvent) : prog (result Response) :=
  if decide (Op e = managedStreamsCall) then
    r ← handleManagedStreams (Event_Data e);
    mret (match r with
          | Ok resp => Ok (ManagedChannelsAnswer resp)
          | Err err => Err err
          end)
  else if decide (Op e = pluginSubscribeStream) then
    r ← handlePluginSubscribeStream c (Event_Data e);
    mret (match r with
          | Ok resp => Ok (SubscribeAnswer resp)
          | Err err => Err err
          end)
  else mret (Err (errors_New "method not found")).

Definition handleSurvey (c : Caller) (e : SurveyEvent) : prog unit :=
  r ← dispatch c e;
  match r with
  | Err _ => call (Callback failure)
  | Ok resp =>
      match Marshal_Response resp with
      | Err _ => call (Callback failure)
      | Ok jsonData => call (Callback {| Code := 0; Data := jsonData |})
      end
  end.

(** The loop of [CallPluginSubscribeStream] over the replies, in the order
    in which [range] visits them.  The three results are the three values
    the Go function returns. *)
Fixpoint subscribeReplies (leaderNodeID : string) (entries : list (string * SurveyReply))
  : SubscribeReply * Z * option error :=
  match entries with
  | [] => (SubscribeReply_zero, 0, Some (errors_New "leader node not responded"))
  | (nodeID, result) :: entries =>
      if decide (Code result ≠ 0) then
        (SubscribeReply_zero, 0, Some (unexpected_survey_code (Code result)))
      else if decide (nodeID ≠ leaderNodeID) then
        subscribeReplies leaderNodeID entries
      else
        match Unmarshal_PluginSubscribeStreamResponse (Data result) with
        | Err err => (SubscribeReply_zero, 0, Some err)
        | Ok res => (Reply res, Status res, None)
        end
  end.

(** [user] is dereferenced at once, so it is taken by value; [ctx] only
    bounds the survey. *)
Definition CallPluginSubscribeStream (user : SignedInUser)
    (channel leaderNodeID leadershipID : string)
  : prog (SubscribeReply * Z * option error) :=
  let req := {| req_OrgID := OrgId user; req_UserID := UserId user;
                req_Channel := channel; req_LeaderNodeID := leaderNodeID;
                req_LeadershipID := leadershipID |} in
  match Marshal_PluginSubscribeStreamRequest req with
  | Err err => mret (SubscribeReply_zero, 0, Some err)
  | Ok jsonData =>
      resp ← call (Survey pluginSubscribeStream jsonData leaderNodeID);
      match resp with
      | Err err => mret (SubscribeReply_zero, 0, Some (survey_error err))
      | Ok resp =>
          entries ← call (Range resp);
          mret (subscribeReplies leaderNodeID entries)
      end
  end.

(** The body of the inner loop of [CallManagedStreams].  The map holds
    pointers to freshly decoded channels, which nothing else refers to, so
    updating [MinuteRate] through the map is an update of the entry. *)
Definition mergeChannel (channels : gmap string ManagedChannel) (ch : ManagedChannel)
  : gmap string ManagedChannel :=
  match channels !! Channel ch with
  | Some seen =>
      if String.prefix "plugin/testdata/" (Channel ch) then channels
      else <[Channel ch := {| Channel := Channel seen;
                              MinuteRate := rate_add (MinuteRate seen) (MinuteRate ch);
                              channel_fields := channel_fields seen |}]> channels
  | None => <[Channel ch := ch]> channels
  end.

(** The outer loop of [CallManagedStreams], over the replies in the order
    in which [range] visits them. *)
Fixpoint mergeReplies (channels : gmap string ManagedChannel) (replies : list SurveyReply)
  : result (gmap string ManagedChannel) :=
  match replies with
  | [] => Ok channels
  | result :: replies =>
      if decide (Code result ≠ 0) then Err (unexpected_survey_code (Code result))
      else
        match Unmarshal_NodeManagedChannelsResponse (Data result) with
        | Err err => Err err
        | Ok res => mergeReplies (foldl mergeChannel channels (Channels res)) replies
        end
  end.

(** The [less] closure handed to [sort.Slice]; Go compares strings byte by
    byte. *)
Definition byChannel (a b : ManagedChannel) : bool := String.ltb (Channel a) (Channel b).

Definition CallManagedStreams (orgID : Z) : prog (result (list ManagedChannel)) :=
  match Marshal_NodeManagedChannelsRequest {| OrgID := orgID |} with
  | Err err => mret (Err err)
  | Ok jsonData =>
      resp ← call (Survey managedStreamsCall jsonData "");
      match resp with
      | Err err => mret (Err err)
      | Ok resp =>
          entries ← call (Range resp);
          match mergeReplies ∅ entries.*2 with
          | Err err => mret (Err err)
          | Ok channels =>
              result ← call (Range channels);
              mret (Ok (sort_Slice byChannel result.*2))
          end
      end
  end.
End Code.

(** ** Observing a trace *)

Section Observers.
Context `{Foreign}.

(** The collaborator method an event calls. *)
Definition method {X} (e : Ev X) : string :=
  match e with
  | GetManagedChannels _ => "GetManagedChannels"
  | GetLeader _ => "GetLeader"
  | Dispatch _ => "Dispatch"
  | GetChannelHandler _ _ => "GetChannelHandler"
  | OnSubscribe _ _ _ => "OnSubscribe"
  | Survey _ _ _ => "Survey"
  | Range _ => "range"
  | Callback _ => "cb"
  end.

(** The methods called along a trace, in order. *)
Definition calls (tr : list Action) : list string :=
  tr ≫= λ a, match a with Called e => [method e] | Logged _ _ => [] end.

(** The replies handed to the survey callback along a trace. *)
Definition replies (tr : list Action) : list SurveyReply :=
  tr ≫= λ a,
    match a with
    | Called e => match e with Callback r => [r] | _ => [] end
    | Logged _ _ => []
    end.

(** The runtime visits every entry of a ranged-over map exactly once. *)
Definition range_ok {W} (env : Env W) : Prop :=
  ∀ V (m : gmap string V) w, (answer env (Range m) w).1 ≡ₚ map_to_list m.
End Observers.

(** ** The merge, in the words of the specification *)

Section Merge.
Context `{Json}.

(** The channels that the replies carry, in the order in which they are
    merged. *)
Definition decoded (replies : list SurveyReply) : list ManagedChannel :=
  replies ≫= λ r,
    match Unmarshal_NodeManagedChannelsResponse (Data r) with
    | Ok res => Channels res
    | Err _ => []
    end.

(** The occurrences of a channel name in a list of channels. *)
Definition occurrences (name : string) (l : list ManagedChannel) : list ManagedChannel :=
  filter (λ ch, Channel ch = name) l.

(** The entry for a name, given its first occurrence and the later ones:
    the first occurrence as it is, with the rates of the later ones added
    unless the name is under the reserved prefix. *)
Definition merged (first : ManagedChannel) (later : list ManagedChannel) : ManagedChannel :=
  if String.prefix "plugin/testdata/" (Channel first) then first
  else {| Channel := Channel first;
          MinuteRate := foldl rate_add (MinuteRate first) (MinuteRate <$> later);
          channel_fields := channel_fields first |}.
End Merge.

(** ** A simulated cluster

    Concrete collaborators on which the code above can be run: rates are
    64-bit integers, payloads are looked up in a table instead of being
    parsed, the leader manager and the managed-stream runner answer from
    tables held in the state of the world, and the channel handler records
    the channels it was asked to subscribe to. *)

Module Fixture.
(** Wrap-around to the range of a Go [int64]. *)
Definition int64 (z : Z) : Z := ((z + 2 ^ 63) mod 2 ^ 64 - 2 ^ 63)%Z.

Definition foreign : Foreign := {|
  Rate := Z;
  rate_add a b := int64 (a + b);
  ChannelFields := bytes;
  SubscribeReply := bytes;
  SubscribeReply_zero := [];
  UserFields := string;
  UserFields_zero := "";
  ChannelHandler := string;
  LiveChannel := string * string * string;
  Path ch := ch.2;
  PrependOrgID orgID channel := pretty orgID +:+ "/" +:+ channel;
|}.
#[local] Existing Instance foreign.

Fixpoint lookup_payload {A} (table : list (bytes * A)) (data : bytes) : result A :=
  match table with
  | [] => Err (errors_New "unexpected end of JSON input")
  | (payload, a) :: table =>
      if bool_decide (Byte.to_N <$> payload = Byte.to_N <$> data) then Ok a
      else lookup_payload table data
  end.

Definition joined : SubscribeReply := ["042"%byte].

Definition channel (name : string) (rate : Z) : ManagedChannel :=
  {| Channel := name; MinuteRate := rate; channel_fields := [] |}.

Definition subscribe_request (userID : Z) (leadershipID : string) : PluginSubscribeStreamRequest :=
  {| req_OrgID := 1; req_UserID := userID; req_Channel := "plugin/testdata/foo";
     req_LeaderNodeID := "node-1"; req_LeadershipID := leadershipID |}.

Definition json : Json := {|
  Unmarshal_NodeManagedChannelsRequest :=
    lookup_payload [(["001"%byte], {| OrgID := 1 |})];
  Unmarshal_NodeManagedChannelsResponse :=
    lookup_payload
      [(["010"%byte], {| Channels := [channel "x/a" 1] |});
       (["011"%byte], {| Channels := [channel "x/a" 2; channel "x/b" 5] |});
       (["012"%byte], {| Channels := [channel "plugin/testdata/foo" 100] |})];
  Unmarshal_PluginSubscribeStreamRequest :=
    lookup_payload
      [(["016"%byte], subscribe_request 0 "lease-7");
       (["017"%byte], subscribe_request (-3) "lease-7");
       (["018"%byte], subscribe_request 5 "lease-6")];
  Unmarshal_PluginSubscribeStreamResponse :=
    lookup_payload [(["032"%byte], {| Status := 0; Reply := joined |})];
  Marshal_NodeManagedChannelsRequest req := Ok ["001"%byte];
  Marshal_PluginSubscribeStreamRequest req := Ok ["016"%byte];
  Marshal_Response resp :=
    Ok match resp with
       | ManagedChannelsAnswer _ => ["048"%byte]
       | SubscribeAnswer _ => ["032"%byte]
       end;
|}.
#[local] Existing Instance json.

Record Cluster := {
  leaderships : gmap string (string * string);
  tracked : gmap Z (list ManagedChannel);
  peers : gmap string SurveyReply;
  subscribed : list string;
}.

(** [backwards] chooses between two of the orders in which [range] may
    visit a map.  [Survey] answers with the replies of all the peers whatever
    its target, as a transport that broadcasts does. *)
Definition env (backwards : bool) : Env Cluster := {|
  answer X e :=
    match e in Ev X return Cluster → X * Cluster with
    | GetManagedChannels orgID => λ w, (Ok (default [] (tracked w !! orgID)), w)
    | GetLeader key => λ w,
        (match leaderships w !! key with
         | Some (nodeID, leadershipID) =>
             {| leader_ok := true; leader_nodeID := nodeID;
                leader_leadershipID := leadershipID; leader_err := None |}
         | None =>
             {| leader_ok := false; leader_nodeID := "";
                leader_leadershipID := ""; leader_err := None |}
         end, w)
    | Dispatch query => λ w,
        ((None, Some {| UserId := query_UserId query; OrgId := query_OrgId query;
                        user_fields := "admin" |}), w)
    | GetChannelHandler user name => λ w, (Ok ("testdata", ("plugin", "testdata", "foo")), w)
    | OnSubscribe handler user event => λ w,
        (Ok (joined, 0%Z),
         {| leaderships := leaderships w; tracked := tracked w; peers := peers w;
            subscribed := event_Channel event :: subscribed w |})
    | Survey op data toNodeID => λ w, (Ok (peers w), w)
    | Range m => λ w, (if backwards then reverse (map_to_list m) else map_to_list m, w)
    | Callback reply => λ w, (tt, w)
    end
|}.

Definition cluster (peers : list (string * SurveyReply)) : Cluster := {|
  leaderships := {[ "1/plugin/testdata/foo" := ("node-1", "lease-7") ]};
  tracked := {[ 1%Z := [channel "x/b" 5; channel "x/a" 1] ]};
  peers := list_to_map peers;
  subscribed := [];
|}.
End Fixture.

(** ** Steps of the subscribe handler *)

Section Steps.
Context `{Foreign} {W : Type} (env : Env W).

(** The identity the subscribe handler resolves for a request, in the world
    [w1] left by the leader lookup: the synthesized one for a request
    without a user, or else the [Result] of a successful [Dispatch]; [wu] is
    the world after the resolution. *)
Definition resolved_identity (req : PluginSubscribeStreamRequest) (w1 : W)
    (u : option SignedInUser) (wu : W) : Prop :=
  ((req_UserID req ≤ 0)%Z ∧
   u = Some {| UserId := 0; OrgId := req_OrgID req; user_fields := UserFields_zero |} ∧
   wu = w1) ∨
  ((0 < req_UserID req)%Z ∧
   answer env (Dispatch {| query_UserId := req_UserID req;
                           query_OrgId := req_OrgID req |}) w1 = ((None, u), wu)).
End Steps.

(** ** Scripted collaborators

    Collaborators that answer each call from a script, whatever its
    arguments, and count the calls they have answered; the codec knows the
    payloads of one survey round trip of each kind and can be told to fail
    to marshal. *)

Module Scenario.
#[local] Existing Instance Fixture.foreign.

Definition tracked : list ManagedChannel := [Fixture.channel "x/b" 5; Fixture.channel "x/a" 1].

Definition json (broken : bool) : Json := {|
  Unmarshal_NodeManagedChannelsRequest :=
    Fixture.lookup_payload [(["001"%byte], {| OrgID := 1 |})];
  Unmarshal_NodeManagedChannelsResponse :=
    Fixture.lookup_payload
      [(["010"%byte], {| Channels := [Fixture.channel "x/a" 1] |});
       (["011"%byte], {| Channels := [Fixture.channel "x/a" 2; Fixture.channel "x/b" 5] |});
       (["012"%byte], {| Channels := [Fixture.channel "plugin/testdata/foo" 100] |});
       (["048"%byte], {| Channels := tracked |})];
  Unmarshal_PluginSubscribeStreamRequest :=
    Fixture.lookup_payload
      [(["016"%byte], Fixture.subscribe_request 0 "lease-7");
       (["018"%byte], Fixture.subscribe_request 5 "lease-7")];
  Unmarshal_PluginSubscribeStreamResponse :=
    Fixture.lookup_payload [(["032"%byte], {| Status := 0; Reply := Fixture.joined |})];
  Marshal_NodeManagedChannelsRequest req :=
    if broken then Err (errors_New "json: unsupported value") else Ok ["001"%byte];
  Marshal_PluginSubscribeStreamRequest req :=
    if broken then Err (errors_New "json: unsupported value") else Ok ["016"%byte];
  Marshal_Response resp :=
    Ok match resp with
       | ManagedChannelsAnswer _ => ["048"%byte]
       | SubscribeAnswer _ => ["032"%byte]
       end;
|}.

Definition codec : Json := json false.

Definition admin : option SignedInUser :=
  Some {| UserId := 5; OrgId := 1; user_fields := "admin" |}.

Record Script := {
  leader : LeaderInfo;
  identity : option error * option SignedInUser;
  handler : result (ChannelHandler * LiveChannel);
  subscription : result (SubscribeReply * Z);
  channels : result (list ManagedChannel);
  survey : result (gmap string SurveyReply);
  backwards : bool;
}.

Definition env (s : Script) : Env nat := {|
  answer X e :=
    match e in Ev X return nat → X * nat with
    | GetManagedChannels _ => λ n, (channels s, S n)
    | GetLeader _ => λ n, (leader s, S n)
    | Dispatch _ => λ n, (identity s, S n)
    | GetChannelHandler _ _ => λ n, (handler s, S n)
    | OnSubscribe _ _ _ => λ n, (subscription s, S n)
    | Survey _ _ _ => λ n, (survey s, S n)
    | Range m => λ n, (if backwards s then reverse (map_to_list m) else map_to_list m, S n)
    | Callback _ => λ n, (tt, S n)
    end
|}.

(** A script in which every collaborator succeeds: the leader manager
    reports [node-1] with [lease-7]. *)
Definition script (survey : result (gmap string SurveyReply)) : Script := {|
  leader := {| leader_ok := true; leader_nodeID := "node-1";
               leader_leadershipID := "lease-7"; leader_err := None |};
  identity := (None, admin);
  handler := Ok ("testdata", ("plugin", "testdata", "foo"));
  subscription := Ok (Fixture.joined, 0%Z);
  channels := Ok tracked;
  survey := survey;
  backwards := false;
|}.

(** The same script with one collaborator failing. *)
Definition without_leader_manager : Script := {|
  leader := {| leader_ok := true; leader_nodeID := "node-1";
               leader_leadershipID := "lease-7";
               leader_err := Some (errors_New "context deadline exceeded") |};
  identity := identity (script (Ok ∅));
  handler := handler (script (Ok ∅));
  subscription := subscription (script (Ok ∅));
  channels := channels (script (Ok ∅));
  survey := Ok ∅;
  backwards := false;
|}.

Definition without_bus : Script := {|
  leader := leader (script (Ok ∅));
  identity := (Some (errors_New "user not found"), None);
  handler := handler (script (Ok ∅));
  subscription := subscription (script (Ok ∅));
  channels := channels (script (Ok ∅));
  survey := Ok ∅;
  backwards := false;
|}.

Definition without_channel_handler : Script := {|
  leader := leader (script (Ok ∅));
  identity := identity (script (Ok ∅));
  handler := Err (errors_New "unknown scope");
  subscription := subscription (script (Ok ∅));
  channels := channels (script (Ok ∅));
  survey := Ok ∅;
  backwards := false;
|}.

Definition without_runner : Script := {|
  leader := leader (script (Ok ∅));
  identity := identity (script (Ok ∅));
  handler := handler (script (Ok ∅));
  subscription := subscription (script (Ok ∅));
  channels := Err (errors_New "runner stopped");
  survey := Ok ∅;
  backwards := false;
|}.

(** The script read in the other order of visit. *)
Definition reversed (s : Script) : Script := {|
  leader := leader s;
  identity := identity s;
  handler := handler s;
  subscription := subscription s;
  channels := channels s;
  survey := survey s;
  backwards := true;
|}.
End Scenario.

(** * The canvas layer tree: [public/app/plugins/panel/canvas/tree.ts] *)

Module Canvas.

(** The scene, as [getTreeData] sees it: an [ElementState] has a [UID] and
    a name ([getName()]); an element that is an instance of [FrameState]
    also has [elements]. *)
#[local] Unset Elimination Schemes.

Inductive ElementState : Type :=
| Element (UID : Z) (name : string)
| Frame (UID : Z) (name : string) (elements : list ElementState).

Definition UID (item : ElementState) : Z :=
  match item with Element uid _ | Frame uid _ _ => uid end.

Definition getName (item : ElementState) : string :=
  match item with Element _ name | Frame _ name _ => name end.

(** A [RootElement] or [FrameState] handed to [getTreeData] as [root]. *)
Record FrameState := {
  frame_UID : Z;
  frame_name : string;
  elements : list ElementState;
}.

(** The one property of [CSSProperties] the file sets; [selectedColor] may
    be undefined. *)
Record CSSProperties := { backgroundColor : option string }.

(** [TreeElement]; an optional field that is absent is [None]. *)
Inductive TreeElement : Type :=
| Node (key : Z) (title : string) (selectable : option bool)
       (children : option (list TreeElement)) (dataRef : ElementState)
       (style : option CSSProperties).

#[local] Set Elimination Schemes.

Definition key (n : TreeElement) : Z := let 'Node k _ _ _ _ _ := n in k.
Definition title (n : TreeElement) : string := let 'Node _ t _ _ _ _ := n in t.
Definition selectable (n : TreeElement) : option bool := let 'Node _ _ s _ _ _ := n in s.
Definition children (n : TreeElement) : option (list TreeElement) :=
  let 'Node _ _ _ c _ _ := n in c.
Definition dataRef (n : TreeElement) : ElementState := let 'Node _ _ _ _ d _ := n in d.
Definition style (n : TreeElement) : option CSSProperties := let 'Node _ _ _ _ _ s := n in s.

(** [Boolean(selection?.includes(item.getName()))]. *)
Definition isItemSelected (item : ElementState) (selection : option (list string)) : bool :=
  match selection with
  | None => false
  | Some names => bool_decide (getName item ∈ names)
  end.

Section getTreeData.
Context (selection : option (list string)) (selectedColor : option string).

(** The body of the loop of [getTreeData] for one [item], the recursive
    call on a frame included.  The loop counts [i] down from
    [elements.length - 1] to [0] and pushes, so the element pushed first is
    the last of [elements]. *)
Fixpoint element (item : ElementState) : TreeElement :=
  Node (UID item) (getName item) (Some true)
    match item with
    | Frame _ _ elements =>
        Some ((fix loop (elements : list ElementState) : list TreeElement :=
                 match elements with
                 | [] => []
                 | item :: elements => (loop elements ++ [element item])%list
                 end) elements)
    | Element _ _ => None
    end
    item
    (if isItemSelected item selection then Some {| backgroundColor := selectedColor |}
     else None).

Fixpoint loop (elements : list ElementState) : list TreeElement :=
  match elements with
  | [] => []
  | item :: elements => (loop elements ++ [element item])%list
  end.

Definition getTreeData (root : option FrameState) : list TreeElement :=
  match root with
  | None => []
  | Some root => loop (elements root)
  end.
End getTreeData.

(** All the elements of a scene, and all the nodes of a tree, at any
    depth. *)
Fixpoint descendants (item : ElementState) : list ElementState :=
  item ::
  match item with
  | Frame _ _ elements =>
      (fix all (elements : list ElementState) : list ElementState :=
         match elements with
         | [] => []
         | item :: elements => (descendants item ++ all elements)%list
         end) elements
  | Element _ _ => []
  end.

Definition all_elements (elements : list ElementState) : list ElementState :=
  elements ≫= descendants.

Fixpoint subtree (n : TreeElement) : list TreeElement :=
  n ::
  match n with
  | Node _ _ _ (Some children) _ _ =>
      (fix all (children : list TreeElement) : list TreeElement :=
         match children with
         | [] => []
         | n :: children => (subtree n ++ all children)%list
         end) children
  | Node _ _ _ None _ _ => []
  end.

Definition all_nodes (tree : list TreeElement) : list TreeElement :=
  tree ≫= subtree.
End Canvas.

(** ** Running programs *)

Section Run.
Context `{Foreign} {W : Type} (env : Env W).

Lemma run_bind {A B} (p : prog A) (f : A → prog B) w :
  run env (p ≫= f) w =
    let o := run env p w in
    let o' := run env (f (value o)) (world o) in
    {| value := value o'; world := world o'; trace := trace o ++ trace o' |}.
Proof.
  unfold mbind, prog_bind. revert w.
  induction p as [a | lvl msg k IH | X e k IH]; intros w; cbn.
  - by destruct (run env (f a) w).
  - by rewrite IH.
  - by rewrite IH.
Qed.
End Run.

Ltac not_called :=
  cbn; let Hin := fresh in
  intros Hin;
  repeat (apply elem_of_cons in Hin as [Hin | Hin]; [discriminate Hin |]);
  by apply elem_of_nil in Hin.

Ltac run_simpl :=
  unfold mbind, mret, prog_bind, prog_ret, call, log; cbn [run bind value world trace fst snd].

Section Handlers.
Context `{Json} {W : Type} (env : Env W).

(** C9.  [handleManagedStreams] asks the managed-stream runner for the
    channels of the organization named in the request and does nothing
    else: it returns the runner's list as it is, or the runner's error as
    it is. *)
Theorem handleManagedStreams_exact (w : W) (data : bytes) (req : NodeManagedChannelsRequest) :
  Unmarshal_NodeManagedChannelsRequest data = Ok req →
  let r := answer env (GetManagedChannels (OrgID req)) w in
  let o := run env (handleManagedStreams data) w in
  trace o = [Called (GetManagedChannels (OrgID req))] ∧
  world o = r.2 ∧
  (∀ channels, r.1 = Ok channels → value o = Ok {| Channels := channels |}) ∧
  (∀ err, r.1 = Err err → value o = Err err).
Proof.
  intros Hreq r o. subst o. unfold handleManagedStreams. rewrite Hreq.
  run_simpl. fold r. destruct r.1 as [channels | err]; cbn.
  all: repeat split; congruence.
Qed.

(** C2.  A subscribe request addressed to another node is answered with
    the empty response at once: the run calls no collaborator at all and
    leaves the world as it was. *)
Theorem handlePluginSubscribeStream_non_leader
    (c : Caller) (w : W) (data : bytes) (req : PluginSubscribeStreamRequest) :
  Unmarshal_PluginSubscribeStreamRequest data = Ok req →
  req_LeaderNodeID req ≠ node_ID c →
  let o := run env (handlePluginSubscribeStream c data) w in
  value o = Ok {| Status := 0; Reply := SubscribeReply_zero |} ∧
  world o = w ∧
  trace o = [Logged Debug "Handle plugin subscribe stream survey";
             Logged Debug "Non-leader node"] ∧
  calls (trace o) = [].
Proof.
  intros Hreq Hne o. subst o. unfold handlePluginSubscribeStream. rewrite Hreq.
  run_simpl. rewrite decide_True by done. by cbn.
Qed.

(** C1.  The fencing check: when the leader lookup succeeds but reports no
    leader, or a leadership token other than the one in the request, the
    handler fails with "leader changed", and the only collaborator it has
    called is the leader manager: [OnSubscribe] is not called. *)
Theorem handlePluginSubscribeStream_leader_changed
    (c : Caller) (w : W) (data : bytes) (req : PluginSubscribeStreamRequest) :
  Unmarshal_PluginSubscribeStreamRequest data = Ok req →
  req_LeaderNodeID req = node_ID c →
  let key := PrependOrgID (req_OrgID req) (req_Channel req) in
  let l := (answer env (GetLeader key) w).1 in
  leader_err l = None →
  leader_ok l = false ∨ leader_leadershipID l ≠ req_LeadershipID req →
  let o := run env (handlePluginSubscribeStream c data) w in
  value o = Err (errors_New "leader changed") ∧
  trace o = [Logged Debug "Handle plugin subscribe stream survey";
             Called (GetLeader key);
             Logged Error "Leader changed"] ∧
  "OnSubscribe" ∉ calls (trace o).
Proof.
  intros Hreq Hself key l Herr Hstale o. subst o.
  unfold handlePluginSubscribeStream. rewrite Hreq. run_simpl.
  rewrite decide_False by (intros Hne; by apply Hne).
  run_simpl. fold key l. rewrite Herr. rewrite decide_True by done.
  cbn. split_and!; [done..|]. not_called.
Qed.

(** C10.  Past the self-check and the fencing check, a request whose user
    ID is zero or negative is served without the identity lookup: the bus
    is not called, and the channel handler is resolved for an identity
    that carries the organization ID and nothing else. *)
Theorem handlePluginSubscribeStream_anonymous
    (c : Caller) (w : W) (data : bytes) (req : PluginSubscribeStreamRequest) :
  Unmarshal_PluginSubscribeStreamRequest data = Ok req →
  req_LeaderNodeID req = node_ID c →
  let key := PrependOrgID (req_OrgID req) (req_Channel req) in
  let l := (answer env (GetLeader key) w).1 in
  leader_err l = None →
  leader_ok l = true →
  leader_leadershipID l = req_LeadershipID req →
  (req_UserID req ≤ 0)%Z →
  let o := run env (handlePluginSubscribeStream c data) w in
  let user := Some {| UserId := 0; OrgId := req_OrgID req;
                      user_fields := UserFields_zero |} in
  ("Dispatch" ∉ calls (trace o)) ∧
  (∃ rest,
    trace o = ([Logged Debug "Handle plugin subscribe stream survey";
                Called (GetLeader key);
                Called (GetChannelHandler user (req_Channel req))] ++ rest)%list).
Proof.
  intros Hreq Hself key l Herr Hok Htoken Hanon o user. subst o.
  unfold handlePluginSubscribeStream. rewrite Hreq. run_simpl.
  rewrite decide_False by (intros Hne; by apply Hne).
  run_simpl. fold key l. rewrite Herr.
  rewrite decide_False by (intros [Hno | Hne]; congruence).
  rewrite decide_False by lia.
  run_simpl. fold user.
  destruct (answer env (GetChannelHandler user (req_Channel req)) _) as [[[h ch] | err] w1];
    run_simpl.
  - match goal with |- context [answer env ?e w1] => destruct (answer env e w1) as [[[r s] | err] w2] end;
      run_simpl; (split; [not_called | eauto]).
  - split; [not_called | eauto].
Qed.

Lemma replies_app (tr1 tr2 : list Action) :
  replies (tr1 ++ tr2)%list = (replies tr1 ++ replies tr2)%list.
Proof. unfold replies. apply bind_app. Qed.

Lemma handleManagedStreams_no_reply (data : bytes) (w : W) :
  replies (trace (run env (handleManagedStreams data) w)) = [].
Proof.
  unfold handleManagedStreams.
  repeat (first [done | case_match | case_decide | progress run_simpl]).
Qed.

Lemma handlePluginSubscribeStream_no_reply (c : Caller) (data : bytes) (w : W) :
  replies (trace (run env (handlePluginSubscribeStream c data) w)) = [].
Proof.
  unfold handlePluginSubscribeStream.
  repeat (first [done | case_match | case_decide | progress run_simpl]).
Qed.

Lemma dispatch_no_reply (c : Caller) (e : SurveyEvent) (w : W) :
  replies (trace (run env (dispatch c e) w)) = [].
Proof.
  unfold dispatch. repeat case_decide; [| |done].
  - rewrite run_bind. cbn [trace]. by rewrite replies_app, handleManagedStreams_no_reply.
  - rewrite run_bind. cbn [trace]. by rewrite replies_app, handlePluginSubscribeStream_no_reply.
Qed.

Lemma dispatch_value (c : Caller) (e : SurveyEvent) (w : W) :
  value (run env (dispatch c e) w) =
    if decide (Op e = managedStreamsCall) then
      match value (run env (handleManagedStreams (Event_Data e)) w) with
      | Ok resp => Ok (ManagedChannelsAnswer resp)
      | Err err => Err err
      end
    else if decide (Op e = pluginSubscribeStream) then
      match value (run env (handlePluginSubscribeStream c (Event_Data e)) w) with
      | Ok resp => Ok (SubscribeAnswer resp)
      | Err err => Err err
      end
    else Err (errors_New "method not found").
Proof.
  unfold dispatch. repeat case_decide; [| |done]; by rewrite run_bind.
Qed.

(** What [handleSurvey] replies, in terms of what its [switch] returned. *)
Lemma reply_of_dispatch (c : Caller) (e : SurveyEvent) (w : W) :
  ∃ reply : SurveyReply,
    replies (trace (run env (handleSurvey c e) w)) = [reply] ∧
    (Code reply = 0 ∨ reply = {| Code := 1; Data := [] |}) ∧
    (Op e ≠ managedStreamsCall → Op e ≠ pluginSubscribeStream →
       reply = {| Code := 1; Data := [] |}) ∧
    (∀ err, Op e = managedStreamsCall →
       Unmarshal_NodeManagedChannelsRequest (Event_Data e) = Err err →
       reply = {| Code := 1; Data := [] |}) ∧
    (∀ err, Op e = pluginSubscribeStream →
       Unmarshal_PluginSubscribeStreamRequest (Event_Data e) = Err err →
       reply = {| Code := 1; Data := [] |}) ∧
    (∀ err, Op e = managedStreamsCall →
       value (run env (handleManagedStreams (Event_Data e)) w) = Err err →
       reply = {| Code := 1; Data := [] |}) ∧
    (∀ err, Op e = pluginSubscribeStream →
       value (run env (handlePluginSubscribeStream c (Event_Data e)) w) = Err err →
       reply = {| Code := 1; Data := [] |}) ∧
    (∀ resp jsonData, value (run env (dispatch c e) w) = Ok resp →
       Marshal_Response resp = Ok jsonData →
       reply = {| Code := 0; Data := jsonData |}) ∧
    (Code reply = 0 →
       ∃ resp jsonData,
         value (run env (dispatch c e) w) = Ok resp ∧
         Marshal_Response resp = Ok jsonData ∧
         Data reply = jsonData ∧
         (Op e = managedStreamsCall ∧
            (∃ r, value (run env (handleManagedStreams (Event_Data e)) w) = Ok r ∧
                  resp = ManagedChannelsAnswer r) ∨
          Op e = pluginSubscribeStream ∧
            (∃ r, value (run env (handlePluginSubscribeStream c (Event_Data e)) w) = Ok r ∧
                  resp = SubscribeAnswer r))).
Proof.
  pose proof (dispatch_value c e w) as Hvalue.
  pose proof (dispatch_no_reply c e w) as Hquiet.
  unfold handleSurvey. rewrite run_bind. cbn [trace value world]. rewrite replies_app, Hquiet.
  assert (Hmanaged : ∀ err, Op e = managedStreamsCall →
            Unmarshal_NodeManagedChannelsRequest (Event_Data e) = Err err →
            value (run env (handleManagedStreams (Event_Data e)) w) = Err err).
  { intros err _ Hbad. unfold handleManagedStreams. by rewrite Hbad. }
  assert (Hsubscribe : ∀ err, Op e = pluginSubscribeStream →
            Unmarshal_PluginSubscribeStreamRequest (Event_Data e) = Err err →
            value (run env (handlePluginSubscribeStream c (Event_Data e)) w) = Err err).
  { intros err _ Hbad. unfold handlePluginSubscribeStream. by rewrite Hbad. }
  destruct (value (run env (dispatch c e) w)) as [resp | err0] eqn:Hdispatch.
  - destruct (Marshal_Response resp) as [jsonData | err1] eqn:Hjson; run_simpl; cbn.
    + eexists; split; [done|]. split_and!; cbn; try (by left).
      * intros. repeat case_decide; congruence.
      * intros err Hop Hbad. specialize (Hmanaged err Hop Hbad).
        rewrite decide_True in Hvalue by done. rewrite Hmanaged in Hvalue. done.
      * intros err Hop Hbad. specialize (Hsubscribe err Hop Hbad).
        rewrite decide_False, decide_True in Hvalue by (rewrite ?Hop; done).
        rewrite Hsubscribe in Hvalue. done.
      * intros err Hop Hbad. rewrite decide_True, Hbad in Hvalue by done. done.
      * intros err Hop Hbad.
        rewrite decide_False, decide_True, Hbad in Hvalue by (rewrite ?Hop; done). done.
      * intros resp' jsonData' [= <-] Hjson'. congruence.
      * intros _. exists resp, jsonData. split_and!; [done..|].
        repeat case_decide; [left | right | done]; (split; [done|]);
          case_match; naive_solver.
    + eexists; split; [done|]. split_and!; cbn; try done; try (by right).
      * intros resp' jsonData' [= <-] Hjson'. congruence.
  - run_simpl; cbn. eexists; split; [done|]. split_and!; cbn; try done. by right.
Qed.

(** C8.  [handleSurvey] hands exactly one reply to the callback.  The
    reply is the fixed failure reply (code 1, no payload) when the
    operation is not one of the two known names, when the payload does not
    decode and when the handler returns an error, whatever the error is.
    When the handler of the operation returns a response, the reply has
    code 0 and carries the JSON encoding of that response, or is the
    failure reply if the response cannot be encoded.  The reply has code 0
    in no other case. *)
Theorem handleSurvey_reply (c : Caller) (e : SurveyEvent) (w : W) :
  ∃ reply : SurveyReply,
    replies (trace (run env (handleSurvey c e) w)) = [reply] ∧
    (Code reply = 0 ∨ reply = {| Code := 1; Data := [] |}) ∧
    (Op e ≠ managedStreamsCall → Op e ≠ pluginSubscribeStream →
       reply = {| Code := 1; Data := [] |}) ∧
    (∀ err, Op e = managedStreamsCall →
       Unmarshal_NodeManagedChannelsRequest (Event_Data e) = Err err →
       reply = {| Code := 1; Data := [] |}) ∧
    (∀ err, Op e = pluginSubscribeStream →
       Unmarshal_PluginSubscribeStreamRequest (Event_Data e) = Err err →
       reply = {| Code := 1; Data := [] |}) ∧
    (∀ err, Op e = managedStreamsCall →
       value (run env (handleManagedStreams (Event_Data e)) w) = Err err →
       reply = {| Code := 1; Data := [] |}) ∧
    (∀ err, Op e = pluginSubscribeStream →
       value (run env (handlePluginSubscribeStream c (Event_Data e)) w) = Err err →
       reply = {| Code := 1; Data := [] |}) ∧
    (∀ resp jsonData, value (run env (dispatch c e) w) = Ok resp →
       Marshal_Response resp = Ok jsonData →
       reply = {| Code := 0; Data := jsonData |}) ∧
    (Code reply = 0 →
       ∃ resp jsonData,
         value (run env (dispatch c e) w) = Ok resp ∧
         Marshal_Response resp = Ok jsonData ∧
         Data reply = jsonData ∧
         (Op e = managedStreamsCall ∧
            (∃ r, value (run env (handleManagedStreams (Event_Data e)) w) = Ok r ∧
                  resp = ManagedChannelsAnswer r) ∨
          Op e = pluginSubscribeStream ∧
            (∃ r, value (run env (handlePluginSubscribeStream c (Event_Data e)) w) = Ok r ∧
                  resp = SubscribeAnswer r))) ∧
    (∀ r jsonData, Op e = managedStreamsCall →
       value (run env (handleManagedStreams (Event_Data e)) w) = Ok r →
       Marshal_Response (ManagedChannelsAnswer r) = Ok jsonData →
       reply = {| Code := 0; Data := jsonData |}) ∧
    (∀ r jsonData, Op e = pluginSubscribeStream →
       value (run env (handlePluginSubscribeStream c (Event_Data e)) w) = Ok r →
       Marshal_Response (SubscribeAnswer r) = Ok jsonData →
       reply = {| Code := 0; Data := jsonData |}) ∧
    (∀ r err, Op e = managedStreamsCall →
       value (run env (handleManagedStreams (Event_Data e)) w) = Ok r →
       Marshal_Response (ManagedChannelsAnswer r) = Err err →
       reply = {| Code := 1; Data := [] |}) ∧
    (∀ r err, Op e = pluginSubscribeStream →
       value (run env (handlePluginSubscribeStream c (Event_Data e)) w) = Ok r →
       Marshal_Response (SubscribeAnswer r) = Err err →
       reply = {| Code := 1; Data := [] |}).
Proof.
  destruct (reply_of_dispatch c e w)
    as (reply & Hreplies & Hcode & Hunknown & Hbad1 & Hbad2 & Herr1 & Herr2 & Hok & Hzero).
  pose proof (dispatch_value c e w) as Hvalue.
  assert (Hmanaged : ∀ r, Op e = managedStreamsCall →
            value (run env (handleManagedStreams (Event_Data e)) w) = Ok r →
            value (run env (dispatch c e) w) = Ok (ManagedChannelsAnswer r)).
  { intros r Hop Hr. by rewrite Hvalue, decide_True, Hr. }
  assert (Hsubscribe : ∀ r, Op e = pluginSubscribeStream →
            value (run env (handlePluginSubscribeStream c (Event_Data e)) w) = Ok r →
            value (run env (dispatch c e) w) = Ok (SubscribeAnswer r)).
  { intros r Hop Hr. rewrite Hvalue, decide_False, decide_True, Hr by (rewrite ?Hop; done).
    done. }
  exists reply. split_and!; try done.
  - intros r jsonData Hop Hr Hjson. by apply (Hok (ManagedChannelsAnswer r)); [apply Hmanaged|].
  - intros r jsonData Hop Hr Hjson. by apply (Hok (SubscribeAnswer r)); [apply Hsubscribe|].
  - intros r err Hop Hr Hjson. destruct Hcode as [Hcode | Hcode]; [|done].
    destruct (Hzero Hcode) as (resp & jsonData & Hresp & Hjson' & _).
    rewrite (Hmanaged r Hop Hr) in Hresp. injection Hresp as <-. congruence.
  - intros r err Hop Hr Hjson. destruct Hcode as [Hcode | Hcode]; [|done].
    destruct (Hzero Hcode) as (resp & jsonData & Hresp & Hjson' & _).
    rewrite (Hsubscribe r Hop Hr) in Hresp. injection Hresp as <-. congruence.
Qed.
End Handlers.

(** ** The targeted leader call *)

Section LeaderCall.
Context `{Json}.

(** Replies with status 0 from other nodes are stepped over. *)
Lemma subscribeReplies_found (leaderNodeID : string) (reply : SurveyReply)
    (res : PluginSubscribeStreamResponse) (entries : list (string * SurveyReply)) :
  (leaderNodeID, reply) ∈ entries →
  (∀ nodeID r, (nodeID, r) ∈ entries → Code r = 0) →
  (∀ r, (leaderNodeID, r) ∈ entries → r = reply) →
  Unmarshal_PluginSubscribeStreamResponse (Data reply) = Ok res →
  subscribeReplies leaderNodeID entries = (Reply res, Status res, None).
Proof.
  intros Hin Hcodes Hleader Hres.
  induction entries as [| [nodeID r] entries IH]; [by apply elem_of_nil in Hin|].
  cbn. rewrite decide_False by (intros Hne; apply Hne, (Hcodes nodeID); left).
  case_decide as Hnode.
  - apply IH.
    + apply elem_of_cons in Hin as [[= -> ->] | Hin]; done.
    + intros n r' Hr'. apply (Hcodes n). by right.
    + intros r' Hr'. apply Hleader. by right.
  - assert (nodeID = leaderNodeID) as -> by (destruct (decide (nodeID = leaderNodeID)); done).
    rewrite (Hleader r) by left. by rewrite Hres.
Qed.

Lemma subscribeReplies_not_found (leaderNodeID : string) (entries : list (string * SurveyReply)) :
  (∀ nodeID r, (nodeID, r) ∈ entries → Code r = 0 ∧ nodeID ≠ leaderNodeID) →
  subscribeReplies leaderNodeID entries =
    (SubscribeReply_zero, 0, Some (errors_New "leader node not responded")).
Proof.
  induction entries as [| [nodeID r] entries IH]; intros Hall; [done|].
  destruct (Hall nodeID r) as [Hcode Hnode]; [left|].
  cbn. rewrite decide_False by (intros Hne; by apply Hne).
  rewrite decide_True by done. apply IH. intros n r' Hr'. apply Hall. by right.
Qed.

(** A reply with a non-zero code fails the loop unless a status-0 reply of
    the leader comes before it. *)
Lemma subscribeReplies_unexpected (leaderNodeID nodeID : string) (reply : SurveyReply)
    (before after : list (string * SurveyReply)) :
  Code reply ≠ 0 →
  (∀ r, (leaderNodeID, r) ∈ before → Code r ≠ 0) →
  ∃ n r,
    (n, r) ∈ (before ++ [(nodeID, reply)])%list ∧ Code r ≠ 0 ∧
    subscribeReplies leaderNodeID (before ++ (nodeID, reply) :: after)%list =
      (SubscribeReply_zero, 0, Some (unexpected_survey_code (Code r))).
Proof.
  intros Hcode. induction before as [| [n r] before IH]; intros Hleader; cbn.
  - exists nodeID, reply. rewrite decide_True by done. split_and!; [left|done..].
  - case_decide as Hr.
    + exists n, r. split_and!; [left|done..].
    + rewrite decide_True.
      * destruct IH as (n' & r' & Hin & Hr' & Heq).
        { intros r0 Hr0. apply Hleader. by right. }
        exists n', r'. split_and!; [by right|done..].
      * intros ->. by apply (Hleader r); [left|].
Qed.

Context {W : Type} (env : Env W).

Lemma CallPluginSubscribeStream_value (user : SignedInUser)
    (channel leaderNodeID leadershipID : string) (jsonData : bytes)
    (resp : gmap string SurveyReply) (w w1 : W) :
  Marshal_PluginSubscribeStreamRequest
    {| req_OrgID := OrgId user; req_UserID := UserId user; req_Channel := channel;
       req_LeaderNodeID := leaderNodeID; req_LeadershipID := leadershipID |} = Ok jsonData →
  answer env (Survey pluginSubscribeStream jsonData leaderNodeID) w = (Ok resp, w1) →
  value (run env (CallPluginSubscribeStream user channel leaderNodeID leadershipID) w) =
    subscribeReplies leaderNodeID (answer env (Range resp) w1).1.
Proof.
  intros Hjson Hsurvey. unfold CallPluginSubscribeStream. rewrite Hjson.
  run_simpl. rewrite Hsurvey. by run_simpl.
Qed.

Lemma range_elem_of {V} (m : gmap string V) (w : W) (k : string) (v : V) :
  range_ok env → (k, v) ∈ (answer env (Range m) w).1 ↔ m !! k = Some v.
Proof. intros Hrange. by rewrite (Hrange V m w), elem_of_map_to_list. Qed.

(** C6.  When the leader has replied with status 0 and a payload that
    decodes, and the replies of the other nodes have status 0, the call
    returns the reply and the status of the leader's payload, in whatever
    order the replies are visited. *)
Theorem CallPluginSubscribeStream_leader_reply (user : SignedInUser)
    (channel leaderNodeID leadershipID : string) (jsonData : bytes)
    (resp : gmap string SurveyReply) (w w1 : W)
    (data : bytes) (res : PluginSubscribeStreamResponse) :
  range_ok env →
  Marshal_PluginSubscribeStreamRequest
    {| req_OrgID := OrgId user; req_UserID := UserId user; req_Channel := channel;
       req_LeaderNodeID := leaderNodeID; req_LeadershipID := leadershipID |} = Ok jsonData →
  answer env (Survey pluginSubscribeStream jsonData leaderNodeID) w = (Ok resp, w1) →
  resp !! leaderNodeID = Some {| Code := 0; Data := data |} →
  Unmarshal_PluginSubscribeStreamResponse data = Ok res →
  (∀ nodeID r, nodeID ≠ leaderNodeID → resp !! nodeID = Some r → Code r = 0) →
  value (run env (CallPluginSubscribeStream user channel leaderNodeID leadershipID) w) =
    (Reply res, Status res, None).
Proof.
  intros Hrange Hjson Hsurvey Hleader Hres Hothers.
  rewrite (CallPluginSubscribeStream_value _ _ _ _ _ _ _ _ Hjson Hsurvey).
  apply subscribeReplies_found with (reply := {| Code := 0; Data := data |}); [| | |done].
  - by apply range_elem_of.
  - intros n r Hr%range_elem_of; [|done].
    destruct (decide (n = leaderNodeID)) as [-> | Hn]; [|by eapply Hothers].
    rewrite Hleader in Hr. by injection Hr as <-.
  - intros r Hr%range_elem_of; [|done]. congruence.
Qed.

(** C7.  When every reply has status 0 and none is keyed by the leader's
    node ID, which covers the empty map, the call fails with "leader node
    not responded", in whatever order the replies are visited. *)
Theorem CallPluginSubscribeStream_not_responded (user : SignedInUser)
    (channel leaderNodeID leadershipID : string) (jsonData : bytes)
    (resp : gmap string SurveyReply) (w w1 : W) :
  range_ok env →
  Marshal_PluginSubscribeStreamRequest
    {| req_OrgID := OrgId user; req_UserID := UserId user; req_Channel := channel;
       req_LeaderNodeID := leaderNodeID; req_LeadershipID := leadershipID |} = Ok jsonData →
  answer env (Survey pluginSubscribeStream jsonData leaderNodeID) w = (Ok resp, w1) →
  resp !! leaderNodeID = None →
  (∀ nodeID r, resp !! nodeID = Some r → Code r = 0) →
  value (run env (CallPluginSubscribeStream user channel leaderNodeID leadershipID) w) =
    (SubscribeReply_zero, 0, Some (errors_New "leader node not responded")).
Proof.
  intros Hrange Hjson Hsurvey Hleader Hcodes.
  rewrite (CallPluginSubscribeStream_value _ _ _ _ _ _ _ _ Hjson Hsurvey).
  apply subscribeReplies_not_found. intros n r Hr%range_elem_of; [|done].
  split; [by eapply Hcodes | congruence].
Qed.

(** C5, as amended.  A reply with a non-zero code fails the call with
    "unexpected survey code" whenever no status-0 reply of the addressed
    leader is visited before it.  That is so in every order of visit when
    the leader's own reply has a non-zero code or the leader has not
    replied.  The code reported is the non-zero code of a reply of the
    map. *)
Theorem CallPluginSubscribeStream_unexpected_code (user : SignedInUser)
    (channel leaderNodeID leadershipID : string) (jsonData : bytes)
    (resp : gmap string SurveyReply) (w w1 : W) (nodeID : string) (reply : SurveyReply) :
  range_ok env →
  Marshal_PluginSubscribeStreamRequest
    {| req_OrgID := OrgId user; req_UserID := UserId user; req_Channel := channel;
       req_LeaderNodeID := leaderNodeID; req_LeadershipID := leadershipID |} = Ok jsonData →
  answer env (Survey pluginSubscribeStream jsonData leaderNodeID) w = (Ok resp, w1) →
  resp !! nodeID = Some reply →
  Code reply ≠ 0 →
  (∀ r, resp !! leaderNodeID = Some r → Code r ≠ 0) ∨
  (∃ before after,
     (answer env (Range resp) w1).1 = (before ++ (nodeID, reply) :: after)%list ∧
     ∀ r, (leaderNodeID, r) ∈ before → Code r ≠ 0) →
  ∃ n r,
    resp !! n = Some r ∧ Code r ≠ 0 ∧
    value (run env (CallPluginSubscribeStream user channel leaderNodeID leadershipID) w) =
      (SubscribeReply_zero, 0, Some (unexpected_survey_code (Code r))).
Proof.
  intros Hrange Hjson Hsurvey Hreply Hcode Hcases.
  rewrite (CallPluginSubscribeStream_value _ _ _ _ _ _ _ _ Hjson Hsurvey).
  assert (∃ before after,
     (answer env (Range resp) w1).1 = (before ++ (nodeID, reply) :: after)%list ∧
     ∀ r, (leaderNodeID, r) ∈ before → Code r ≠ 0) as (before & after & Horder & Hbefore).
  { destruct Hcases as [Hleader | Hsplit]; [|done].
    assert ((nodeID, reply) ∈ (answer env (Range resp) w1).1) as Hin by by apply range_elem_of.
    apply list_elem_of_split in Hin as (before & after & Horder).
    exists before, after. split; [done|]. intros r Hr. apply Hleader.
    apply (range_elem_of resp w1); [done|]. rewrite Horder. apply elem_of_app. by left. }
  destruct (subscribeReplies_unexpected leaderNodeID nodeID reply before after Hcode Hbefore)
    as (n & r & Hin & Hr & Heq).
  exists n, r. rewrite Horder. split_and!; [|done..].
  apply (range_elem_of resp w1); [done|]. rewrite Horder.
  apply elem_of_app in Hin as [Hin | Hin%list_elem_of_singleton].
  - apply elem_of_app. by left.
  - apply elem_of_app. right. rewrite Hin. left.
Qed.
End LeaderCall.


(** ** Byte-wise order on strings *)

Lemma Ascii_compare_refl (a : ascii) : Ascii.compare a a = Eq.
Proof. apply N.compare_refl. Qed.

Lemma Ascii_compare_trans (a b c : ascii) :
  Ascii.compare a b = Lt → Ascii.compare b c = Lt → Ascii.compare a c = Lt.
Proof. unfold Ascii.compare. rewrite !N.compare_lt_iff. apply N.lt_trans. Qed.

Lemma String_compare_trans (s1 s2 s3 : string) :
  String.compare s1 s2 = Lt → String.compare s2 s3 = Lt → String.compare s1 s3 = Lt.
Proof.
  revert s2 s3. induction s1 as [| a s1 IH]; intros [| b s2] [| c s3]; cbn; try done.
  destruct (Ascii.compare a b) eqn:Hab; [| |done];
    destruct (Ascii.compare b c) eqn:Hbc; try done.
  - apply Ascii.compare_eq_iff in Hab as ->. rewrite Hbc. apply IH.
  - apply Ascii.compare_eq_iff in Hab as ->. by rewrite Hbc.
  - apply Ascii.compare_eq_iff in Hbc as <-. by rewrite Hab.
  - by rewrite (Ascii_compare_trans a b c).
Qed.

Lemma String_compare_refl (s : string) : String.compare s s = Eq.
Proof. induction s as [| a s IH]; cbn; [done|]. by rewrite Ascii_compare_refl. Qed.

Lemma String_ltb_trans (s1 s2 s3 : string) :
  String.ltb s1 s2 = true → String.ltb s2 s3 = true → String.ltb s1 s3 = true.
Proof.
  unfold String.ltb. intros H12 H23.
  rewrite (String_compare_trans s1 s2 s3); [done| |].
  - by destruct (String.compare s1 s2).
  - by destruct (String.compare s2 s3).
Qed.

Lemma String_ltb_irrefl (s : string) : String.ltb s s = false.
Proof. unfold String.ltb. by rewrite String_compare_refl. Qed.

Lemma String_ltb_total (s1 s2 : string) : String.ltb s2 s1 = false ∨ String.ltb s1 s2 = false.
Proof.
  unfold String.ltb. rewrite (String.compare_antisym s1 s2).
  destruct (String.compare s2 s1); cbn; auto.
Qed.

Lemma String_ltb_connex (s1 s2 : string) :
  String.ltb s2 s1 = false → s1 ≠ s2 → String.ltb s1 s2 = true.
Proof.
  unfold String.ltb. rewrite (String.compare_antisym s1 s2).
  destruct (String.compare s2 s1) eqn:Hcmp; cbn; try done.
  intros _ Hne. destruct Hne. symmetry. by apply String.compare_eq_iff.
Qed.

(** ** The broadcast aggregation call *)

Section Aggregation.
Context `{Json}.

Lemma merged_nil (first : ManagedChannel) : merged first [] = first.
Proof. unfold merged. destruct first. by case_match. Qed.

(** What the inner loop leaves under a name: the entry that was there, or
    else the first occurrence, merged with the occurrences that follow. *)
Lemma foldl_mergeChannel_lookup (l : list ManagedChannel)
    (channels : gmap string ManagedChannel) (name : string) :
  (∀ seen, channels !! name = Some seen → Channel seen = name) →
  foldl mergeChannel channels l !! name =
    match channels !! name with
    | Some seen => Some (merged seen (occurrences name l))
    | None =>
        match occurrences name l with
        | [] => None
        | first :: later => Some (merged first later)
        end
    end.
Proof.
  revert channels. induction l as [| ch l IH]; intros channels Hkey.
  { cbn. destruct (channels !! name); [|done]. by rewrite merged_nil. }
  cbn [foldl]. unfold occurrences in *.
  destruct (decide (Channel ch = name)) as [Hname | Hname].
  - rewrite filter_cons_True by done. rewrite IH.
    + unfold mergeChannel. rewrite Hname.
      destruct (channels !! name) as [seen |] eqn:Hseen.
      * specialize (Hkey seen eq_refl). unfold merged. rewrite Hkey.
        destruct (String.prefix "plugin/testdata/" name) eqn:Hprefix.
        -- by rewrite Hseen, Hkey, Hprefix.
        -- rewrite lookup_insert_eq. cbn. by rewrite Hprefix.
      * rewrite lookup_insert_eq. done.
    + intros seen. unfold mergeChannel. rewrite Hname.
      destruct (channels !! name) as [seen0 |] eqn:Hseen.
      * destruct (String.prefix "plugin/testdata/" name).
        -- rewrite Hseen. intros [= <-]. by apply Hkey.
        -- rewrite lookup_insert_eq. intros [= <-]. cbn. by apply Hkey.
      * rewrite lookup_insert_eq. by intros [= <-].
  - rewrite filter_cons_False by done.
    assert (mergeChannel channels ch !! name = channels !! name) as Hsame.
    { unfold mergeChannel. repeat case_match; by rewrite ?lookup_insert_ne. }
    rewrite IH; rewrite Hsame; done.
Qed.

(** When every reply has status 0 and decodes, the outer loop merges the
    channels of all the replies. *)
Lemma mergeReplies_decoded (replies : list SurveyReply) (channels : gmap string ManagedChannel) :
  (∀ r, r ∈ replies →
     Code r = 0 ∧ ∃ res, Unmarshal_NodeManagedChannelsResponse (Data r) = Ok res) →
  mergeReplies channels replies = Ok (foldl mergeChannel channels (decoded replies)).
Proof.
  revert channels. induction replies as [| r replies IH]; intros channels Hall; [done|].
  destruct (Hall r) as [Hcode [res Hres]]; [left|].
  cbn. rewrite decide_False by (intros Hne; by apply Hne). rewrite Hres.
  unfold decoded. cbn. rewrite foldl_app. apply IH.
  intros r' Hr'. apply Hall. by right.
Qed.

(** A reply with a non-zero code fails the outer loop, wherever it is. *)
Lemma mergeReplies_fails (replies : list SurveyReply) (channels : gmap string ManagedChannel)
    (reply : SurveyReply) :
  reply ∈ replies → Code reply ≠ 0 → ∃ err, mergeReplies channels replies = Err err.
Proof.
  intros Hin Hcode. revert channels.
  induction replies as [| r replies IH]; intros channels; [by apply elem_of_nil in Hin|].
  cbn. case_decide; [eauto|]. case_match; [|eauto].
  apply IH. apply elem_of_cons in Hin as [-> | Hin]; done.
Qed.

Lemma merged_Channel (first : ManagedChannel) (later : list ManagedChannel) :
  Channel (merged first later) = Channel first.
Proof. unfold merged. by case_match. Qed.

(** Every entry of the merged map sits under its own name. *)
Lemma merged_map_key (l : list ManagedChannel) (name : string) (ch : ManagedChannel) :
  foldl mergeChannel ∅ l !! name = Some ch → Channel ch = name.
Proof.
  rewrite foldl_mergeChannel_lookup by (intros seen; by rewrite lookup_empty).
  rewrite lookup_empty. destruct (occurrences name l) as [| first later] eqn:Hocc; [done|].
  intros [= <-]. rewrite merged_Channel.
  assert (first ∈ occurrences name l) as Hfirst by (rewrite Hocc; left).
  unfold occurrences in Hfirst. by apply list_elem_of_filter in Hfirst as [? _].
Qed.

Lemma Sorted_byChannel_strict (k : list ManagedChannel) :
  Sorted (λ a b, byChannel b a = false) k →
  NoDup (Channel <$> k) →
  Sorted (λ a b, byChannel a b = true) k.
Proof.
  induction 1 as [| a k Hk IH Hhd]; intros Hnodup; [constructor|].
  cbn in Hnodup. apply NoDup_cons in Hnodup as [Ha Hnodup].
  constructor; [by apply IH|].
  destruct Hhd as [| b k Hab]; constructor.
  unfold byChannel in *. apply String_ltb_connex; [done|].
  intros Heq. apply Ha. rewrite Heq. cbn. left.
Qed.

(** [sort.Slice] by channel name, on channels of distinct names. *)
Lemma sort_Slice_byChannel (l : list ManagedChannel) :
  NoDup (Channel <$> l) →
  StronglySorted (λ a b, byChannel a b = true) (sort_Slice byChannel l) ∧
  sort_Slice byChannel l ≡ₚ l.
Proof.
  intros Hnames. unfold sort_Slice.
  set (R := λ a b : ManagedChannel, byChannel b a = false).
  set (dec := λ a b : ManagedChannel, decide (byChannel b a = false)).
  assert (Hperm : @merge_sort _ R dec l ≡ₚ l) by apply merge_sort_Permutation.
  split; [|done].
  assert (Total R) as Htotal.
  { intros a b. unfold R, byChannel. destruct (String_ltb_total (Channel b) (Channel a)); auto. }
  assert (Transitive (λ a b, byChannel a b = true)) as Htrans.
  { intros a b c. unfold byChannel. apply String_ltb_trans. }
  apply Sorted_StronglySorted; [done|].
  apply Sorted_byChannel_strict.
  - apply (@Sorted_merge_sort _ R dec Htotal l).
  - by rewrite Hperm.
Qed.
Lemma occurrences_at_most_one (l : list ManagedChannel) (name : string) :
  NoDup (Channel <$> l) →
  occurrences name l = [] ∨ ∃ ch, occurrences name l = [ch].
Proof.
  unfold occurrences. induction l as [| a l IH]; intros Hnodup; [by left|].
  cbn in Hnodup. apply NoDup_cons in Hnodup as [Ha Hnodup].
  destruct (decide (Channel a = name)) as [Hname | Hname].
  - right. exists a. rewrite filter_cons_True by done. f_equal.
    destruct (filter (λ ch, Channel ch = name) l) as [| b k] eqn:Hfilter; [done|].
    assert (b ∈ filter (λ ch, Channel ch = name) l) as Hb by (rewrite Hfilter; left).
    apply list_elem_of_filter in Hb as [Hb Hin]. destruct Ha.
    rewrite Hname, <- Hb. by apply list_elem_of_fmap_2.
  - rewrite filter_cons_False by done. by apply IH.
Qed.

(** The entry of a name in a list that holds the values of a map keyed by
    name. *)
Lemma occurrences_of_map (channels : gmap string ManagedChannel)
    (l : list ManagedChannel) (name : string) :
  (∀ k ch, channels !! k = Some ch → Channel ch = k) →
  l ≡ₚ (map_to_list channels).*2 →
  occurrences name l = match channels !! name with Some ch => [ch] | None => [] end.
Proof.
  intros Hkey Hperm.
  assert (∀ ch, ch ∈ l ↔ channels !! Channel ch = Some ch) as Hin.
  { intros ch. rewrite Hperm, list_elem_of_fmap. split.
    - intros ([k ch'] & -> & Hch%elem_of_map_to_list). cbn. by rewrite (Hkey k ch').
    - intros Hch. exists (Channel ch, ch). split; [done|]. by apply elem_of_map_to_list. }
  assert (NoDup (Channel <$> l)) as Hnodup.
  { rewrite Hperm. rewrite <- list_fmap_compose.
    rewrite (list_fmap_ext (Channel ∘ snd) fst (map_to_list channels)).
    - apply NoDup_fst_map_to_list.
    - intros i [k ch] Hi. cbn. apply (Hkey k ch).
      apply elem_of_map_to_list, list_elem_of_lookup. eauto. }
  destruct (occurrences_at_most_one l name Hnodup) as [Hnone | [ch Hone]].
  - rewrite Hnone. destruct (channels !! name) as [ch |] eqn:Hch; [|done].
    assert (ch ∈ occurrences name l) as Habs; [|rewrite Hnone in Habs; by apply elem_of_nil in Habs].
    pose proof (Hkey _ _ Hch) as Hname.
    apply list_elem_of_filter. split; [done|]. apply Hin. by rewrite Hname.
  - rewrite Hone.
    assert (ch ∈ occurrences name l) as Hch by (rewrite Hone; left).
    apply list_elem_of_filter in Hch as [Hname Hch]. apply Hin in Hch.
    by rewrite <- Hname, Hch.
Qed.

Context {W : Type} (env : Env W).

Lemma CallManagedStreams_value (orgID : Z) (jsonData : bytes)
    (resp : gmap string SurveyReply) (w w1 : W) :
  Marshal_NodeManagedChannelsRequest {| OrgID := orgID |} = Ok jsonData →
  answer env (Survey managedStreamsCall jsonData "") w = (Ok resp, w1) →
  value (run env (CallManagedStreams orgID) w) =
    let visit := answer env (Range resp) w1 in
    match mergeReplies ∅ visit.1.*2 with
    | Err err => Err err
    | Ok channels => Ok (sort_Slice byChannel (answer env (Range channels) visit.2).1.*2)
    end.
Proof.
  intros Hjson Hsurvey. unfold CallManagedStreams. rewrite Hjson.
  run_simpl. rewrite Hsurvey. run_simpl.
  by destruct (mergeReplies ∅ (answer env (Range resp) w1).1.*2).
Qed.

(** C4.  One reply with a non-zero code fails the whole aggregation: the
    call returns an error, and with it no channel, whatever the other
    replies are and in whatever order the replies are visited. *)
Theorem CallManagedStreams_no_partial (orgID : Z) (jsonData : bytes)
    (resp : gmap string SurveyReply) (w w1 : W) (nodeID : string) (reply : SurveyReply) :
  range_ok env →
  Marshal_NodeManagedChannelsRequest {| OrgID := orgID |} = Ok jsonData →
  answer env (Survey managedStreamsCall jsonData "") w = (Ok resp, w1) →
  resp !! nodeID = Some reply →
  Code reply ≠ 0 →
  ∃ err, value (run env (CallManagedStreams orgID) w) = Err err.
Proof.
  intros Hrange Hjson Hsurvey Hreply Hcode.
  rewrite (CallManagedStreams_value _ _ _ _ _ Hjson Hsurvey). cbn.
  destruct (mergeReplies_fails (answer env (Range resp) w1).1.*2 ∅ reply) as [err ->];
    [|done|by exists err].
  apply list_elem_of_fmap. exists (nodeID, reply). split; [done|].
  rewrite (Hrange _ resp w1). by apply elem_of_map_to_list.
Qed.

(** What the call returns when every reply has status 0 and decodes. *)
Lemma CallManagedStreams_merged (orgID : Z) (jsonData : bytes)
    (resp : gmap string SurveyReply) (w w1 : W) :
  range_ok env →
  Marshal_NodeManagedChannelsRequest {| OrgID := orgID |} = Ok jsonData →
  answer env (Survey managedStreamsCall jsonData "") w = (Ok resp, w1) →
  (∀ nodeID r, resp !! nodeID = Some r →
     Code r = 0 ∧ ∃ res, Unmarshal_NodeManagedChannelsResponse (Data r) = Ok res) →
  ∃ result,
    value (run env (CallManagedStreams orgID) w) = Ok result ∧
    StronglySorted (λ a b, byChannel a b = true) result ∧
    ∀ name,
      occurrences name result =
        match occurrences name (decoded (answer env (Range resp) w1).1.*2) with
        | [] => []
        | first :: later => [merged first later]
        end.
Proof.
  intros Hrange Hjson Hsurvey Hall.
  rewrite (CallManagedStreams_value _ _ _ _ _ Hjson Hsurvey). cbn.
  set (visit := answer env (Range resp) w1).
  rewrite mergeReplies_decoded; last first.
  { intros r ([n r'] & -> & Hr)%list_elem_of_fmap. apply (Hall n).
    apply elem_of_map_to_list. by rewrite <- (Hrange _ resp w1). }
  set (channels := foldl mergeChannel ∅ (decoded visit.1.*2)).
  set (values := (answer env (Range channels) visit.2).1.*2).
  assert (values ≡ₚ (map_to_list channels).*2) as Hvalues.
  { unfold values. by rewrite (Hrange _ channels visit.2). }
  assert (∀ k ch, channels !! k = Some ch → Channel ch = k) as Hkey.
  { intros k ch. apply merged_map_key. }
  destruct (sort_Slice_byChannel values) as [Hsorted Hperm].
  { rewrite Hvalues, <- list_fmap_compose.
    rewrite (list_fmap_ext (Channel ∘ snd) fst (map_to_list channels)).
    - apply NoDup_fst_map_to_list.
    - intros i [k ch] Hi. cbn. apply (Hkey k ch).
      apply elem_of_map_to_list, list_elem_of_lookup. eauto. }
  eexists. split_and!; [done..|]. intros name.
  rewrite (occurrences_of_map channels) by (done || by rewrite Hperm).
  unfold channels. rewrite foldl_mergeChannel_lookup by (intros seen; by rewrite lookup_empty).
  rewrite lookup_empty. by destruct (occurrences name (decoded visit.1.*2)).
Qed.

Lemma byChannel_sorted_NoDup (l : list ManagedChannel) :
  StronglySorted (λ a b, byChannel a b = true) l → NoDup l.
Proof.
  induction 1 as [| a l Hl IH Ha]; constructor; [|done].
  intros Hin. rewrite Forall_forall in Ha. specialize (Ha a Hin).
  unfold byChannel in Ha. by rewrite String_ltb_irrefl in Ha.
Qed.

(** A list sorted by name is determined by the occurrences of each name. *)
Lemma sorted_occurrences_unique (l1 l2 : list ManagedChannel) :
  StronglySorted (λ a b, byChannel a b = true) l1 →
  StronglySorted (λ a b, byChannel a b = true) l2 →
  (∀ name, occurrences name l1 = occurrences name l2) →
  l1 = l2.
Proof.
  intros Hl1 Hl2 Hocc.
  assert (AntiSymm (=) (λ a b : ManagedChannel, byChannel a b = true)) as Hanti.
  { intros a b Hab Hba. unfold byChannel in *.
    pose proof (String_ltb_trans _ _ _ Hab Hba) as Haa.
    by rewrite String_ltb_irrefl in Haa. }
  apply (StronglySorted_unique (λ a b, byChannel a b = true)); [done..|].
  apply NoDup_Permutation; [by apply byChannel_sorted_NoDup..|].
  assert (∀ l (ch : ManagedChannel), ch ∈ l ↔ ch ∈ occurrences (Channel ch) l) as Hin.
  { intros l ch. unfold occurrences. rewrite list_elem_of_filter.
    split; [by intros | by intros [_ ?]]. }
  intros ch. by rewrite (Hin l1), (Hin l2), Hocc.
Qed.

Lemma Permutation_pair {A} (x y : A) (l : list A) :
  l ≡ₚ [x; y] → l = [x; y] ∨ l = [y; x].
Proof.
  intros Hperm. symmetry in Hperm. apply permutations_Permutation in Hperm.
  cbn in Hperm. apply elem_of_cons in Hperm as [-> | Hperm]; [by left|].
  apply elem_of_cons in Hperm as [-> | Hperm]; [by right|].
  by apply elem_of_nil in Hperm.
Qed.

(** The example of the specification, on the lists: one node reports
    [x/a] at rate [r1], one reports [x/a] at [r2] and [x/b] at [r5], and two
    report [plugin/testdata/foo] at [r100]. *)
Lemma merge_example (result : list ManagedChannel) (replies : list SurveyReply)
    (dA dB dC dD : bytes) (r1 r2 r3 r5 r100 : Rate) (f : ChannelFields) :
  let ch name rate := {| Channel := name; MinuteRate := rate; channel_fields := f |} in
  replies ≡ₚ [{| Code := 0; Data := dA |}; {| Code := 0; Data := dB |};
              {| Code := 0; Data := dC |}; {| Code := 0; Data := dD |}] →
  Unmarshal_NodeManagedChannelsResponse dA = Ok {| Channels := [ch "x/a" r1] |} →
  Unmarshal_NodeManagedChannelsResponse dB = Ok {| Channels := [ch "x/a" r2; ch "x/b" r5] |} →
  Unmarshal_NodeManagedChannelsResponse dC = Ok {| Channels := [ch "plugin/testdata/foo" r100] |} →
  Unmarshal_NodeManagedChannelsResponse dD = Ok {| Channels := [ch "plugin/testdata/foo" r100] |} →
  rate_add r1 r2 = r3 →
  rate_add r2 r1 = r3 →
  StronglySorted (λ a b, byChannel a b = true) result →
  (∀ name,
     occurrences name result =
       match occurrences name (decoded replies) with
       | [] => []
       | first :: later => [merged first later]
       end) →
  result = [ch "plugin/testdata/foo" r100; ch "x/a" r3; ch "x/b" r5].
Proof.
  intros ch Hperm HA HB HC HD H12 H21 Hsorted Hocc.
  apply sorted_occurrences_unique; [done| |].
  { repeat constructor. }
  intros name. rewrite Hocc.
  assert (occurrences name (decoded replies) ≡ₚ
          occurrences name [ch "x/a" r1; ch "x/a" r2; ch "x/b" r5;
                            ch "plugin/testdata/foo" r100; ch "plugin/testdata/foo" r100])
    as Hname.
  { unfold occurrences, decoded. rewrite Hperm. cbn. by rewrite HA, HB, HC, HD. }
  clear Hocc Hperm. revert Hname. unfold occurrences.
  destruct (decide (name = "x/a")) as [-> | Ha];
    [|destruct (decide (name = "x/b")) as [-> | Hb];
      [|destruct (decide (name = "plugin/testdata/foo")) as [-> | Hf]]].
  - rewrite !filter_cons, filter_nil. cbn. repeat (case_decide; try done).
    intros [-> | ->]%Permutation_pair; unfold merged; cbn; by rewrite ?H12, ?H21.
  - rewrite !filter_cons, filter_nil. cbn. repeat (case_decide; try done).
    intros ->%Permutation_singleton_r. unfold merged. by cbn.
  - rewrite !filter_cons, filter_nil. cbn. repeat (case_decide; try done).
    intros [-> | ->]%Permutation_pair; unfold merged; by cbn.
  - rewrite !filter_cons, filter_nil. cbn. repeat (case_decide; try done).
    by intros ->%Permutation_nil_r.
Qed.

(** C3.  When every reply has status 0 and decodes, the call returns the
    merge of the replies' channels, in the order in which the replies are
    visited: the result is sorted by channel name, and it holds one entry
    for each name that occurs, which is the first occurrence as it is, with
    the rates of the later occurrences added to its rate unless the name
    begins with [plugin/testdata/], in which case the later occurrences are
    dropped.  In particular the four replies [x/a 1], [x/a 2; x/b 5],
    [plugin/testdata/foo 100] and again [plugin/testdata/foo 100], visited in
    any order, merge to [plugin/testdata/foo 100; x/a 3; x/b 5]. *)
Theorem CallManagedStreams_merge (orgID : Z) (jsonData : bytes)
    (resp : gmap string SurveyReply) (w w1 : W) :
  range_ok env →
  Marshal_NodeManagedChannelsRequest {| OrgID := orgID |} = Ok jsonData →
  answer env (Survey managedStreamsCall jsonData "") w = (Ok resp, w1) →
  (∀ nodeID r, resp !! nodeID = Some r →
     Code r = 0 ∧ ∃ res, Unmarshal_NodeManagedChannelsResponse (Data r) = Ok res) →
  ∃ result,
    value (run env (CallManagedStreams orgID) w) = Ok result ∧
    StronglySorted (λ a b, byChannel a b = true) result ∧
    (∀ name,
       occurrences name result =
         match occurrences name (decoded (answer env (Range resp) w1).1.*2) with
         | [] => []
         | first :: later => [merged first later]
         end) ∧
    (∀ (nA nB nC nD : string) (dA dB dC dD : bytes) (r1 r2 r3 r5 r100 : Rate)
       (f : ChannelFields),
       let ch name rate := {| Channel := name; MinuteRate := rate; channel_fields := f |} in
       NoDup [nA; nB; nC; nD] →
       resp = list_to_map [(nA, {| Code := 0; Data := dA |}); (nB, {| Code := 0; Data := dB |});
                           (nC, {| Code := 0; Data := dC |}); (nD, {| Code := 0; Data := dD |})] →
       Unmarshal_NodeManagedChannelsResponse dA = Ok {| Channels := [ch "x/a" r1] |} →
       Unmarshal_NodeManagedChannelsResponse dB =
         Ok {| Channels := [ch "x/a" r2; ch "x/b" r5] |} →
       Unmarshal_NodeManagedChannelsResponse dC =
         Ok {| Channels := [ch "plugin/testdata/foo" r100] |} →
       Unmarshal_NodeManagedChannelsResponse dD =
         Ok {| Channels := [ch "plugin/testdata/foo" r100] |} →
       rate_add r1 r2 = r3 →
       rate_add r2 r1 = r3 →
       result = [ch "plugin/testdata/foo" r100; ch "x/a" r3; ch "x/b" r5]).
Proof.
  intros Hrange Hjson Hsurvey Hall.
  destruct (CallManagedStreams_merged orgID jsonData resp w w1 Hrange Hjson Hsurvey Hall)
    as (result & Hvalue & Hsorted & Hocc).
  exists result. split_and!; [done..|].
  intros nA nB nC nD dA dB dC dD r1 r2 r3 r5 r100 f ch Hnodes Hresp HA HB HC HD H12 H21.
  apply (merge_example result (answer env (Range resp) w1).1.*2 dA dB dC dD r1 r2 r3 r5 r100 f);
    try done.
  rewrite (Hrange _ resp w1), Hresp, map_to_list_to_map; done.
Qed.
End Aggregation.

(** ** The properties on the simulated cluster *)

Section OnTheFixture.
#[local] Existing Instance Fixture.foreign.
#[local] Existing Instance Fixture.json.

Lemma Fixture_range_ok (backwards : bool) : range_ok (Fixture.env backwards).
Proof.
  intros V m w. cbn. destruct backwards; [apply reverse_Permutation | done].
Qed.

Lemma Fixture_peers (peers : list (string * SurveyReply)) (nodeID : string) (r : SurveyReply) :
  Fixture.peers (Fixture.cluster peers) !! nodeID = Some r → (nodeID, r) ∈ peers.
Proof. apply elem_of_list_to_map_2. Qed.

Lemma handleManagedStreams_exact_witness :
  let w := Fixture.cluster [] in
  let o := run (Fixture.env false) (handleManagedStreams ["001"%byte]) w in
  Unmarshal_NodeManagedChannelsRequest ["001"%byte] = Ok {| OrgID := 1 |} ∧
  trace o = [Called (GetManagedChannels 1)] ∧
  value o = Ok {| Channels := [Fixture.channel "x/b" 5; Fixture.channel "x/a" 1] |}.
Proof.
  intros w o.
  destruct (handleManagedStreams_exact (Fixture.env false) w ["001"%byte] {| OrgID := 1 |})
    as (Htrace & _ & Hvalue & _); [reflexivity|].
  split_and!; [reflexivity | exact Htrace | apply Hvalue; reflexivity].
Defined.

Lemma handlePluginSubscribeStream_non_leader_witness :
  let c := {| node_ID := "node-2" |} in
  let w := Fixture.cluster [] in
  let o := run (Fixture.env false) (handlePluginSubscribeStream c ["016"%byte]) w in
  req_LeaderNodeID (Fixture.subscribe_request 0 "lease-7") ≠ node_ID c ∧
  value o = Ok {| Status := 0; Reply := SubscribeReply_zero |} ∧
  world o = w ∧
  calls (trace o) = [].
Proof.
  intros c w o.
  assert (req_LeaderNodeID (Fixture.subscribe_request 0 "lease-7") ≠ node_ID c) as Hne
    by (vm_compute; discriminate).
  destruct (handlePluginSubscribeStream_non_leader (Fixture.env false) c w ["016"%byte]
              (Fixture.subscribe_request 0 "lease-7"))
    as (Hvalue & Hworld & _ & Hcalls); [vm_compute; reflexivity | exact Hne |].
  split_and!; [exact Hne | exact Hvalue | exact Hworld | exact Hcalls].
Defined.

Lemma handlePluginSubscribeStream_leader_changed_witness :
  let c := {| node_ID := "node-1" |} in
  let w := Fixture.cluster [] in
  let o := run (Fixture.env false) (handlePluginSubscribeStream c ["018"%byte]) w in
  leader_leadershipID (answer (Fixture.env false) (GetLeader "1/plugin/testdata/foo") w).1
    ≠ req_LeadershipID (Fixture.subscribe_request 5 "lease-6") ∧
  value o = Err (errors_New "leader changed") ∧
  "OnSubscribe" ∉ calls (trace o).
Proof.
  intros c w o.
  assert (leader_leadershipID (answer (Fixture.env false) (GetLeader "1/plugin/testdata/foo") w).1
            ≠ req_LeadershipID (Fixture.subscribe_request 5 "lease-6")) as Hstale
    by (vm_compute; discriminate).
  destruct (handlePluginSubscribeStream_leader_changed (Fixture.env false) c w ["018"%byte]
              (Fixture.subscribe_request 5 "lease-6"))
    as (Hvalue & _ & Hcalls);
    [vm_compute; reflexivity | reflexivity | vm_compute; reflexivity | right; exact Hstale |].
  split_and!; [exact Hstale | exact Hvalue | exact Hcalls].
Defined.

Lemma handlePluginSubscribeStream_anonymous_witness :
  let c := {| node_ID := "node-1" |} in
  let w := Fixture.cluster [] in
  let o := run (Fixture.env false) (handlePluginSubscribeStream c ["017"%byte]) w in
  (req_UserID (Fixture.subscribe_request (-3) "lease-7") ≤ 0)%Z ∧
  ("Dispatch" ∉ calls (trace o)) ∧
  calls (trace o) = ["GetLeader"; "GetChannelHandler"; "OnSubscribe"].
Proof.
  intros c w o.
  assert (req_UserID (Fixture.subscribe_request (-3) "lease-7") ≤ 0)%Z as Hanon
    by (vm_compute; discriminate).
  destruct (handlePluginSubscribeStream_anonymous (Fixture.env false) c w ["017"%byte]
              (Fixture.subscribe_request (-3) "lease-7"))
    as (Hcalls & _);
    [vm_compute; reflexivity | reflexivity | vm_compute; reflexivity..| exact Hanon |].
  split_and!; [exact Hanon | exact Hcalls | vm_compute; reflexivity].
Defined.

Lemma CallPluginSubscribeStream_leader_reply_witness :
  let user := {| UserId := 5; OrgId := 1; user_fields := "" |} in
  let peers := [("node-1", {| Code := 0; Data := ["032"%byte] |});
                ("node-2", {| Code := 0; Data := [] |})] in
  Unmarshal_PluginSubscribeStreamResponse ["032"%byte] =
    Ok {| Status := 0; Reply := Fixture.joined |} ∧
  value (run (Fixture.env true)
           (CallPluginSubscribeStream user "plugin/testdata/foo" "node-1" "lease-7")
           (Fixture.cluster peers)) = (Fixture.joined, 0%Z, None).
Proof.
  intros user peers. split; [reflexivity|].
  apply (CallPluginSubscribeStream_leader_reply (Fixture.env true) user
           "plugin/testdata/foo" "node-1" "lease-7" ["016"%byte]
           (Fixture.peers (Fixture.cluster peers)) (Fixture.cluster peers)
           (Fixture.cluster peers) ["032"%byte] {| Status := 0; Reply := Fixture.joined |}).
  - apply Fixture_range_ok.
  - reflexivity.
  - reflexivity.
  - vm_compute. reflexivity.
  - reflexivity.
  - intros nodeID r Hne Hr%Fixture_peers.
    repeat (apply elem_of_cons in Hr as [[= -> ->] | Hr]; [done|]).
    by apply elem_of_nil in Hr.
Defined.

Lemma CallPluginSubscribeStream_not_responded_witness :
  let user := {| UserId := 5; OrgId := 1; user_fields := "" |} in
  let peers := [("node-2", {| Code := 0; Data := [] |})] in
  Fixture.peers (Fixture.cluster peers) !! "node-1" = None ∧
  value (run (Fixture.env false)
           (CallPluginSubscribeStream user "plugin/testdata/foo" "node-1" "lease-7")
           (Fixture.cluster peers)) =
    (SubscribeReply_zero, 0%Z, Some (errors_New "leader node not responded")).
Proof.
  intros user peers.
  assert (Fixture.peers (Fixture.cluster peers) !! "node-1" = None) as Hleader
    by (vm_compute; reflexivity).
  split; [exact Hleader|].
  apply (CallPluginSubscribeStream_not_responded (Fixture.env false) user
           "plugin/testdata/foo" "node-1" "lease-7" ["016"%byte]
           (Fixture.peers (Fixture.cluster peers)) (Fixture.cluster peers)
           (Fixture.cluster peers)).
  - apply Fixture_range_ok.
  - reflexivity.
  - reflexivity.
  - exact Hleader.
  - intros nodeID r Hr%Fixture_peers.
    repeat (apply elem_of_cons in Hr as [[= -> ->] | Hr]; [done|]).
    by apply elem_of_nil in Hr.
Defined.

(** C5, as the claim states it, fails: the leader has replied with status 0
    and another node with status 1; the leader's reply is visited first, and
    the call returns the leader's reply instead of failing. *)
Lemma CallPluginSubscribeStream_unexpected_code_counterexample :
  let user := {| UserId := 5; OrgId := 1; user_fields := "" |} in
  let peers := [("node-1", {| Code := 0; Data := ["032"%byte] |});
                ("node-2", {| Code := 1; Data := [] |})] in
  let env := Fixture.env false in
  let w := Fixture.cluster peers in
  let o := run env (CallPluginSubscribeStream user "plugin/testdata/foo" "node-1" "lease-7") w in
  range_ok env ∧
  answer env (Survey pluginSubscribeStream ["016"%byte] "node-1") w = (Ok (Fixture.peers w), w) ∧
  (answer env (Range (Fixture.peers w)) w).1 = peers ∧
  Fixture.peers w !! "node-2" = Some {| Code := 1; Data := [] |} ∧
  value o = (Fixture.joined, 0%Z, None) ∧
  ¬ ∃ code, value o = (SubscribeReply_zero, 0%Z, Some (unexpected_survey_code code)).
Proof.
  intros user peers env w o.
  assert (value o = (Fixture.joined, 0%Z, None)) as Hvalue by (vm_compute; reflexivity).
  split_and!; [apply Fixture_range_ok | reflexivity | vm_compute; reflexivity
              | vm_compute; reflexivity | exact Hvalue |].
  intros [code Hcode]. rewrite Hvalue in Hcode. discriminate Hcode.
Qed.

Lemma CallPluginSubscribeStream_unexpected_code_witness :
  let user := {| UserId := 5; OrgId := 1; user_fields := "" |} in
  let peers := [("node-1", {| Code := 1; Data := [] |});
                ("node-2", {| Code := 0; Data := [] |})] in
  let w := Fixture.cluster peers in
  Fixture.peers w !! "node-1" = Some {| Code := 1; Data := [] |} ∧
  ∃ n r,
    Fixture.peers w !! n = Some r ∧ Code r ≠ 0%Z ∧
    value (run (Fixture.env false)
             (CallPluginSubscribeStream user "plugin/testdata/foo" "node-1" "lease-7") w) =
      (SubscribeReply_zero, 0%Z, Some (unexpected_survey_code (Code r))).
Proof.
  intros user peers w.
  assert (Fixture.peers w !! "node-1" = Some {| Code := 1; Data := [] |}) as Hleader
    by (vm_compute; reflexivity).
  split; [exact Hleader|].
  apply (CallPluginSubscribeStream_unexpected_code (Fixture.env false) user
           "plugin/testdata/foo" "node-1" "lease-7" ["016"%byte]
           (Fixture.peers w) w w "node-1" {| Code := 1; Data := [] |}).
  - apply Fixture_range_ok.
  - reflexivity.
  - reflexivity.
  - exact Hleader.
  - discriminate.
  - left. intros r Hr. rewrite Hleader in Hr. injection Hr as <-. discriminate.
Defined.

Lemma CallManagedStreams_no_partial_witness :
  let peers := [("node-1", {| Code := 0; Data := ["010"%byte] |});
                ("node-2", {| Code := 1; Data := [] |});
                ("node-3", {| Code := 0; Data := ["012"%byte] |})] in
  let w := Fixture.cluster peers in
  Fixture.peers w !! "node-2" = Some {| Code := 1; Data := [] |} ∧
  ∃ err, value (run (Fixture.env false) (CallManagedStreams 1) w) = Err err.
Proof.
  intros peers w.
  assert (Fixture.peers w !! "node-2" = Some {| Code := 1; Data := [] |}) as Hreply
    by (vm_compute; reflexivity).
  split; [exact Hreply|].
  apply (CallManagedStreams_no_partial (Fixture.env false) 1 ["001"%byte]
           (Fixture.peers w) w w "node-2" {| Code := 1; Data := [] |}).
  - apply Fixture_range_ok.
  - reflexivity.
  - reflexivity.
  - exact Hreply.
  - discriminate.
Defined.

Lemma CallManagedStreams_merge_witness :
  let peers := [("node-1", {| Code := 0; Data := ["010"%byte] |});
                ("node-2", {| Code := 0; Data := ["011"%byte] |});
                ("node-3", {| Code := 0; Data := ["012"%byte] |});
                ("node-4", {| Code := 0; Data := ["012"%byte] |})] in
  value (run (Fixture.env true) (CallManagedStreams 1) (Fixture.cluster peers)) =
    Ok [Fixture.channel "plugin/testdata/foo" 100; Fixture.channel "x/a" 3;
        Fixture.channel "x/b" 5].
Proof.
  intros peers.
  destruct (CallManagedStreams_merge (Fixture.env true) 1 ["001"%byte]
              (Fixture.peers (Fixture.cluster peers)) (Fixture.cluster peers)
              (Fixture.cluster peers))
    as (result & Hvalue & _ & _ & Hexample).
  - apply Fixture_range_ok.
  - reflexivity.
  - reflexivity.
  - intros nodeID r Hr%Fixture_peers.
    repeat (apply elem_of_cons in Hr as [[= -> ->] | Hr];
            [split; [reflexivity | eexists; reflexivity]|]).
    by apply elem_of_nil in Hr.
  - rewrite Hvalue. f_equal.
    apply (Hexample "node-1" "node-2" "node-3" "node-4"
             ["010"%byte] ["011"%byte] ["012"%byte] ["012"%byte] 1%Z 2%Z 3%Z 5%Z 100%Z []);
      try reflexivity.
    apply (bool_decide_unpack _). vm_compute. exact I.
Defined.

Lemma handleSurvey_reply_witness :
  let c := {| node_ID := "node-1" |} in
  let reply_to e :=
    replies (trace (run (Fixture.env false) (handleSurvey c e) (Fixture.cluster []))) in
  reply_to {| Op := "presence"; Event_Data := ["001"%byte] |} =
    [{| Code := 1; Data := [] |}] ∧
  reply_to {| Op := managedStreamsCall; Event_Data := ["002"%byte] |} =
    [{| Code := 1; Data := [] |}] ∧
  reply_to {| Op := managedStreamsCall; Event_Data := ["001"%byte] |} =
    [{| Code := 0; Data := ["048"%byte] |}] ∧
  reply_to {| Op := pluginSubscribeStream; Event_Data := ["018"%byte] |} =
    [{| Code := 1; Data := [] |}] ∧
  reply_to {| Op := pluginSubscribeStream; Event_Data := ["016"%byte] |} =
    [{| Code := 0; Data := ["032"%byte] |}].
Proof.
  intros c reply_to. subst reply_to. cbv beta. split_and!.
  - destruct (handleSurvey_reply (Fixture.env false) c
                {| Op := "presence"; Event_Data := ["001"%byte] |} (Fixture.cluster []))
      as (reply & Hreplies & _ & Hunknown & _).
    rewrite Hreplies. f_equal. apply Hunknown; discriminate.
  - destruct (handleSurvey_reply (Fixture.env false) c
                {| Op := managedStreamsCall; Event_Data := ["002"%byte] |} (Fixture.cluster []))
      as (reply & Hreplies & _ & _ & Hbad & _).
    rewrite Hreplies. f_equal.
    apply (Hbad (errors_New "unexpected end of JSON input")); reflexivity.
  - destruct (handleSurvey_reply (Fixture.env false) c
                {| Op := managedStreamsCall; Event_Data := ["001"%byte] |} (Fixture.cluster []))
      as (reply & Hreplies & _ & _ & _ & _ & _ & _ & _ & _ & Hmanaged & _).
    rewrite Hreplies. f_equal.
    apply (Hmanaged {| Channels := [Fixture.channel "x/b" 5; Fixture.channel "x/a" 1] |});
      reflexivity.
  - destruct (handleSurvey_reply (Fixture.env false) c
                {| Op := pluginSubscribeStream; Event_Data := ["018"%byte] |}
                (Fixture.cluster []))
      as (reply & Hreplies & _ & _ & _ & _ & _ & Herr & _).
    rewrite Hreplies. f_equal.
    apply (Herr (errors_New "leader changed")); reflexivity.
  - destruct (handleSurvey_reply (Fixture.env false) c
                {| Op := pluginSubscribeStream; Event_Data := ["016"%byte] |}
                (Fixture.cluster []))
      as (reply & Hreplies & _ & _ & _ & _ & _ & _ & _ & _ & _ & Hsubscribe & _).
    rewrite Hreplies. f_equal.
    apply (Hsubscribe {| Status := 0; Reply := Fixture.joined |}); reflexivity.
Defined.
End OnTheFixture.

(** ** Further properties of the handlers *)

Section HandlerProtocol.
Context `{Json} {W : Type} (env : Env W).

(** X1.  The subscribe handler calls [OnSubscribe] only under valid
    leadership: if a run calls it, then the request decoded, it was
    addressed to this node, and the leader manager answered without error
    that there is a leader, with the leadership ID of the request. *)
Theorem OnSubscribe_only_when_fenced (c : Caller) (data : bytes) (w : W) :
  "OnSubscribe" ∈ calls (trace (run env (handlePluginSubscribeStream c data) w)) →
  ∃ req,
    Unmarshal_PluginSubscribeStreamRequest data = Ok req ∧
    req_LeaderNodeID req = node_ID c ∧
    let l := (answer env (GetLeader (PrependOrgID (req_OrgID req) (req_Channel req))) w).1 in
    leader_err l = None ∧ leader_ok l = true ∧
    leader_leadershipID l = req_LeadershipID req.
Proof.
  unfold handlePluginSubscribeStream.
  destruct (Unmarshal_PluginSubscribeStreamRequest data) as [req | err]; run_simpl;
    [|by intros ?%elem_of_nil].
  case_decide as Hself; run_simpl; [by intros ?%elem_of_nil|].
  set (l := (answer env (GetLeader _) w).1).
  destruct (leader_err l) eqn:Herr; run_simpl.
  { intros Hin. exfalso. revert Hin. not_called. }
  case_decide as Hstale; run_simpl.
  { intros Hin. exfalso. revert Hin. not_called. }
  intros _. exists req. split_and!; [done..| |].
  - fold l. destruct (leader_ok l); [done|]. destruct Hstale. by left.
  - fold l. destruct (decide (leader_leadershipID l = req_LeadershipID req)); [done|].
    destruct Hstale. by right.
Qed.

(** X2.  The subscribe handler follows a fixed protocol, and the
    collaborator calls of a run are determined by the payload and by what
    the collaborators answer.  A payload that does not decode, or a request
    addressed to another node, makes no call.  Otherwise [GetLeader] is
    called first, and it is the only call when the lookup fails, finds no
    leader or finds another leadership ID.  Under valid leadership
    [Dispatch] is called next exactly when the user ID of the request is
    above zero, on the user and organisation of the request, and it is the
    last call when it fails.  Then [GetChannelHandler] is called, for the
    user that was found or for the anonymous user of the organisation, and
    [OnSubscribe] follows exactly when a handler was found.  So the calls
    are one of seven sequences, each method is called at most once, no
    survey is issued and no reply is made; a run that returns a response
    called nothing or ended with [OnSubscribe]. *)
Theorem handlePluginSubscribeStream_protocol (c : Caller) (data : bytes) (w : W) :
  let o := run env (handlePluginSubscribeStream c data) w in
  calls (trace o) ∈
    [ [];
      ["GetLeader"];
      ["GetLeader"; "Dispatch"];
      ["GetLeader"; "GetChannelHandler"];
      ["GetLeader"; "Dispatch"; "GetChannelHandler"];
      ["GetLeader"; "GetChannelHandler"; "OnSubscribe"];
      ["GetLeader"; "Dispatch"; "GetChannelHandler"; "OnSubscribe"] ] ∧
  calls (trace o) =
    match Unmarshal_PluginSubscribeStreamRequest data with
    | Err _ => []
    | Ok req =>
        if decide (req_LeaderNodeID req = node_ID c) then
          let lookup :=
            answer env (GetLeader (PrependOrgID (req_OrgID req) (req_Channel req))) w in
          "GetLeader" ::
          match leader_err lookup.1 with
          | Some _ => []
          | None =>
              if decide (leader_ok lookup.1 = true ∧
                         leader_leadershipID lookup.1 = req_LeadershipID req) then
                let resolve (user : option SignedInUser) (wu : W) :=
                  "GetChannelHandler" ::
                  match (answer env (GetChannelHandler user (req_Channel req)) wu).1 with
                  | Err _ => []
                  | Ok _ => ["OnSubscribe"]
                  end in
                if decide (0 < req_UserID req)%Z then
                  let found :=
                    answer env (Dispatch {| query_UserId := req_UserID req;
                                            query_OrgId := req_OrgID req |}) lookup.2 in
                  "Dispatch" ::
                  match found.1.1 with
                  | Some _ => []
                  | None => resolve found.1.2 found.2
                  end
                else
                  resolve (Some {| UserId := 0; OrgId := req_OrgID req;
                                   user_fields := UserFields_zero |}) lookup.2
              else []
          end
        else []
    end ∧
  (∀ req, Unmarshal_PluginSubscribeStreamRequest data = Ok req →
     (req_UserID req ≤ 0)%Z → "Dispatch" ∉ calls (trace o)) ∧
  (∀ r, value o = Ok r →
     calls (trace o) = [] ∨ last (calls (trace o)) = Some "OnSubscribe") ∧
  (∀ r, value o = Ok r → calls (trace o) = [] →
     r = {| Status := 0; Reply := SubscribeReply_zero |}).
Proof.
  cbv zeta. unfold handlePluginSubscribeStream.
  destruct (Unmarshal_PluginSubscribeStreamRequest data) as [req|err] eqn:Hreq; run_simpl.
  2: { split_and!; [by left|done|done|by left|done]. }
  destruct (decide (req_LeaderNodeID req ≠ node_ID c)) as [Hnode|Hnode].
  { rewrite decide_False by done. run_simpl.
    split_and!; [by left|done|by intros ? ? ?; not_called|by left|by intros ? [= <-]]. }
  apply dec_stable in Hnode. rewrite (decide_True _ _ Hnode). run_simpl.
  set (lookup := answer env (GetLeader _) w).
  destruct (leader_err lookup.1) as [err|] eqn:Herr; run_simpl.
  { split_and!; [by right; left|done|by intros ? ? ?; not_called|done|done]. }
  destruct (decide (leader_ok lookup.1 = false ∨
                    leader_leadershipID lookup.1 ≠ req_LeadershipID req)) as [Hstale|Hvalid].
  { assert (Hnot : ¬ (leader_ok lookup.1 = true ∧
                      leader_leadershipID lookup.1 = req_LeadershipID req)).
    { intros [Hok Hid]. destruct Hstale; congruence. }
    rewrite (decide_False _ _ Hnot). run_simpl.
    split_and!; [by right; left|done|by intros ? ? ?; not_called|done|done]. }
  assert (Hcurrent : leader_ok lookup.1 = true ∧
                     leader_leadershipID lookup.1 = req_LeadershipID req).
  { split.
    - destruct (leader_ok lookup.1); [done|]. destruct Hvalid. by left.
    - destruct (decide (leader_leadershipID lookup.1 = req_LeadershipID req)); [done|].
      destruct Hvalid. by right. }
  rewrite (decide_True _ _ Hcurrent).
  destruct (decide (0 < req_UserID req)%Z) as [Huser|Huser]; run_simpl.
  - set (found := answer env (Dispatch _) lookup.2).
    destruct (found.1.1) as [err|] eqn:Hfound; run_simpl.
    { split_and!; [by do 2 right; left|done|intros ? [= <-]; lia|done|done]. }
    set (getter := answer env (GetChannelHandler _ _) found.2).
    destruct (getter.1) as [[handler parsedChannel]|err] eqn:Hgetter; run_simpl.
    2: { split_and!; [by do 4 right; left|done|intros ? [= <-]; lia|done|done]. }
    match goal with |- context [answer env (OnSubscribe ?h ?u ?ev) ?wu] =>
      destruct (answer env (OnSubscribe h u ev) wu).1 as [[reply status]|err] end;
      run_simpl; (split_and!; [by do 6 right; left|done|intros ? [= <-]; lia|by right|done]).
  - set (getter := answer env (GetChannelHandler _ _) lookup.2).
    destruct (getter.1) as [[handler parsedChannel]|err] eqn:Hgetter; run_simpl.
    2: { split_and!; [by do 3 right; left|done|by intros ? ? ?; not_called|done|done]. }
    match goal with |- context [answer env (OnSubscribe ?h ?u ?ev) ?wu] =>
      destruct (answer env (OnSubscribe h u ev) wu).1 as [[reply status]|err] end;
      run_simpl; (split_and!; [by do 5 right; left|done|by intros ? ? ?; not_called|by right|done]).
Qed.

(** X3.  When the leader lookup itself fails, the subscribe handler stops
    there with "error checking leader": the lookup's own error is not passed
    on, whatever else the lookup reported, and no other collaborator is
    called. *)
Theorem handlePluginSubscribeStream_leader_error
    (c : Caller) (w : W) (data : bytes) (req : PluginSubscribeStreamRequest) (err : error) :
  Unmarshal_PluginSubscribeStreamRequest data = Ok req →
  req_LeaderNodeID req = node_ID c →
  let lookup := answer env (GetLeader (PrependOrgID (req_OrgID req) (req_Channel req))) w in
  leader_err lookup.1 = Some err →
  let o := run env (handlePluginSubscribeStream c data) w in
  value o = Err (errors_New "error checking leader") ∧
  world o = lookup.2 ∧
  calls (trace o) = ["GetLeader"].
Proof.
  intros Hreq Hself lookup Herr o. subst o.
  unfold handlePluginSubscribeStream. rewrite Hreq. run_simpl.
  rewrite decide_False by (intros Hne; by apply Hne).
  run_simpl. fold lookup. by rewrite Herr.
Qed.

(** X4.  For a request that names a user (user ID above zero) and passes
    both checks, the handler asks the bus for that user in the request's
    organization right after the leader lookup.  If the bus fails, the
    handler fails with "error getting signed in user" and resolves no
    channel handler; otherwise the channel handler is resolved for the
    user the bus returned. *)
Theorem handlePluginSubscribeStream_identified
    (c : Caller) (w : W) (data : bytes) (req : PluginSubscribeStreamRequest) :
  Unmarshal_PluginSubscribeStreamRequest data = Ok req →
  req_LeaderNodeID req = node_ID c →
  let key := PrependOrgID (req_OrgID req) (req_Channel req) in
  let lookup := answer env (GetLeader key) w in
  leader_err lookup.1 = None →
  leader_ok lookup.1 = true →
  leader_leadershipID lookup.1 = req_LeadershipID req →
  (0 < req_UserID req)%Z →
  let query := {| query_UserId := req_UserID req; query_OrgId := req_OrgID req |} in
  let found := answer env (Dispatch query) lookup.2 in
  let o := run env (handlePluginSubscribeStream c data) w in
  (∀ err, found.1.1 = Some err →
     value o = Err (errors_New "error getting signed in user") ∧
     world o = found.2 ∧
     trace o = [Logged Debug "Handle plugin subscribe stream survey";
                Called (GetLeader key); Called (Dispatch query);
                Logged Error "Error getting signed in user"]) ∧
  (found.1.1 = None →
     ∃ rest,
       trace o = ([Logged Debug "Handle plugin subscribe stream survey";
                   Called (GetLeader key); Called (Dispatch query);
                   Called (GetChannelHandler found.1.2 (req_Channel req))] ++ rest)%list).
Proof.
  intros Hreq Hself key lookup Herr Hok Htoken Huser query found o. subst o.
  unfold handlePluginSubscribeStream. rewrite Hreq. run_simpl.
  rewrite decide_False by (intros Hne; by apply Hne).
  run_simpl. fold key lookup. rewrite Herr.
  rewrite decide_False by (intros [Hno | Hne]; congruence).
  rewrite decide_True by done.
  run_simpl. fold query found. split.
  - intros err Hfound. by rewrite Hfound.
  - intros Hfound. rewrite Hfound. run_simpl.
    repeat (first [case_match | progress run_simpl]); eauto.
Qed.

Lemma handlePluginSubscribeStream_fenced
    (c : Caller) (w : W) (data : bytes) (req : PluginSubscribeStreamRequest)
    (u : option SignedInUser) (wu : W) :
  Unmarshal_PluginSubscribeStreamRequest data = Ok req →
  req_LeaderNodeID req = node_ID c →
  let key := PrependOrgID (req_OrgID req) (req_Channel req) in
  let lookup := answer env (GetLeader key) w in
  leader_err lookup.1 = None →
  leader_ok lookup.1 = true →
  leader_leadershipID lookup.1 = req_LeadershipID req →
  resolved_identity env req lookup.2 u wu →
  let resolved := answer env (GetChannelHandler u (req_Channel req)) wu in
  let o := run env (handlePluginSubscribeStream c data) w in
  ∃ pre,
    match resolved.1 with
    | Err err =>
        value o = Err err ∧ world o = resolved.2 ∧
        trace o = (pre ++ [Called (GetChannelHandler u (req_Channel req));
                           Logged Error "Error getting ChannelHandler"])%list
    | Ok (handler, parsedChannel) =>
        let event := {| event_Channel := req_Channel req;
                        event_Path := Path parsedChannel;
                        event_LeadershipID := req_LeadershipID req |} in
        let done := answer env (OnSubscribe handler u event) resolved.2 in
        world o = done.2 ∧
        match done.1 with
        | Err err =>
            value o = Err err ∧
            trace o = (pre ++ [Called (GetChannelHandler u (req_Channel req));
                               Called (OnSubscribe handler u event);
                               Logged Error "Error calling OnSubscribe handler"])%list
        | Ok (reply, status) =>
            value o = Ok {| Status := status; Reply := reply |} ∧
            trace o = (pre ++ [Called (GetChannelHandler u (req_Channel req));
                               Called (OnSubscribe handler u event)])%list
        end
    end ∧
    ("GetChannelHandler" ∉ calls pre) ∧ ("OnSubscribe" ∉ calls pre).
Proof.
  intros Hreq Hself key lookup Herr Hok Htoken Hid resolved o. subst o.
  unfold handlePluginSubscribeStream. rewrite Hreq. run_simpl.
  rewrite decide_False by (intros Hne; by apply Hne).
  run_simpl. fold key lookup. rewrite Herr.
  rewrite decide_False by (intros [Hno | Hne]; congruence).
  destruct Hid as [(Hanon & -> & ->) | (Huser & Hfound)].
  - rewrite decide_False by lia. run_simpl. fold resolved.
    exists [Logged Debug "Handle plugin subscribe stream survey"; Called (GetLeader key)].
    split; [|split; not_called].
    destruct resolved.1 as [[handler parsedChannel] | err]; run_simpl; [|done].
    match goal with
    | |- context [answer env ?e resolved.2] => set (fin := answer env e resolved.2)
    end.
    by destruct fin.1 as [[reply status] | err].
  - rewrite decide_True by done. run_simpl. rewrite Hfound. run_simpl. fold resolved.
    exists [Logged Debug "Handle plugin subscribe stream survey"; Called (GetLeader key);
            Called (Dispatch {| query_UserId := req_UserID req;
                                query_OrgId := req_OrgID req |})].
    split; [|split; not_called].
    destruct resolved.1 as [[handler parsedChannel] | err]; run_simpl; [|done].
    match goal with
    | |- context [answer env ?e resolved.2] => set (fin := answer env e resolved.2)
    end.
    by destruct fin.1 as [[reply status] | err].
Qed.

(** X5.  When the channel handler cannot be resolved, the subscribe handler
    returns the getter's error as it is, and [OnSubscribe] is not called;
    this holds for a synthesized identity and for one found by the bus. *)
Theorem handlePluginSubscribeStream_unresolved
    (c : Caller) (w : W) (data : bytes) (req : PluginSubscribeStreamRequest)
    (u : option SignedInUser) (wu : W) (err : error) :
  Unmarshal_PluginSubscribeStreamRequest data = Ok req →
  req_LeaderNodeID req = node_ID c →
  let lookup := answer env (GetLeader (PrependOrgID (req_OrgID req) (req_Channel req))) w in
  leader_err lookup.1 = None →
  leader_ok lookup.1 = true →
  leader_leadershipID lookup.1 = req_LeadershipID req →
  resolved_identity env req lookup.2 u wu →
  let resolved := answer env (GetChannelHandler u (req_Channel req)) wu in
  resolved.1 = Err err →
  let o := run env (handlePluginSubscribeStream c data) w in
  value o = Err err ∧ world o = resolved.2 ∧ "OnSubscribe" ∉ calls (trace o).
Proof.
  intros Hreq Hself lookup Herr Hok Htoken Hid resolved Hresolved o.
  destruct (handlePluginSubscribeStream_fenced c w data req u wu Hreq Hself Herr Hok Htoken Hid)
    as (pre & Hrun & _ & Hpre).
  fold resolved in Hrun. rewrite Hresolved in Hrun. destruct Hrun as (Hvalue & Hworld & Htrace).
  split_and!; [done..|]. subst o. rewrite Htrace. unfold calls in *.
  rewrite bind_app. intros [Hin | Hin]%elem_of_app; [done|]. revert Hin. not_called.
Qed.

(** X6.  Once the channel handler is resolved, [OnSubscribe] is called on
    it, for the identity the handler was resolved for, with an event made of
    the request's channel, the path of the parsed channel and the request's
    leadership ID; what it returns, reply and status or error, is what the
    subscribe handler returns. *)
Theorem handlePluginSubscribeStream_subscribes
    (c : Caller) (w : W) (data : bytes) (req : PluginSubscribeStreamRequest)
    (u : option SignedInUser) (wu : W) (handler : ChannelHandler) (parsedChannel : LiveChannel) :
  Unmarshal_PluginSubscribeStreamRequest data = Ok req →
  req_LeaderNodeID req = node_ID c →
  let lookup := answer env (GetLeader (PrependOrgID (req_OrgID req) (req_Channel req))) w in
  leader_err lookup.1 = None →
  leader_ok lookup.1 = true →
  leader_leadershipID lookup.1 = req_LeadershipID req →
  resolved_identity env req lookup.2 u wu →
  let resolved := answer env (GetChannelHandler u (req_Channel req)) wu in
  resolved.1 = Ok (handler, parsedChannel) →
  let event := {| event_Channel := req_Channel req;
                  event_Path := Path parsedChannel;
                  event_LeadershipID := req_LeadershipID req |} in
  let done := answer env (OnSubscribe handler u event) resolved.2 in
  let o := run env (handlePluginSubscribeStream c data) w in
  Called (OnSubscribe handler u event) ∈ trace o ∧
  world o = done.2 ∧
  value o = match done.1 with
            | Ok (reply, status) => Ok {| Status := status; Reply := reply |}
            | Err err => Err err
            end.
Proof.
  intros Hreq Hself lookup Herr Hok Htoken Hid resolved Hresolved event done o.
  destruct (handlePluginSubscribeStream_fenced c w data req u wu Hreq Hself Herr Hok Htoken Hid)
    as (pre & Hrun & _).
  fold resolved in Hrun. rewrite Hresolved in Hrun. cbn zeta in Hrun.
  fold event done in Hrun. destruct Hrun as [Hworld Hrun]. subst o.
  destruct done.1 as [[reply status] | err]; destruct Hrun as [Hvalue Htrace];
    (split_and!; [|done..]); rewrite Htrace; apply elem_of_app; right;
    apply elem_of_cons; right; apply elem_of_cons; by left.
Qed.

(** X7.  A survey that cannot be dispatched costs nothing: for an unknown
    operation, or a payload that does not decode, [handleSurvey] does
    nothing but hand the failure reply to the callback: no log line, no
    other collaborator call. *)
Theorem handleSurvey_rejects_quietly (c : Caller) (e : SurveyEvent) (w : W) :
  (Op e ≠ managedStreamsCall ∧ Op e ≠ pluginSubscribeStream) ∨
  (Op e = managedStreamsCall ∧
     ∃ err, Unmarshal_NodeManagedChannelsRequest (Event_Data e) = Err err) ∨
  (Op e = pluginSubscribeStream ∧
     ∃ err, Unmarshal_PluginSubscribeStreamRequest (Event_Data e) = Err err) →
  let o := run env (handleSurvey c e) w in
  trace o = [Called (Callback {| Code := 1; Data := [] |})] ∧
  world o = (answer env (Callback {| Code := 1; Data := [] |}) w).2.
Proof.
  intros Hcases o. subst o. unfold handleSurvey, dispatch.
  destruct Hcases as [[Hm Hs] | [[Hm [err Hbad]] | [Hs [err Hbad]]]].
  - rewrite !decide_False by done. by run_simpl.
  - rewrite decide_True by done. unfold handleManagedStreams. rewrite Hbad. by run_simpl.
  - rewrite decide_False, decide_True by (rewrite ?Hs; done).
    unfold handlePluginSubscribeStream. rewrite Hbad. by run_simpl.
Qed.
End HandlerProtocol.

(** ** Further properties of the outbound callers *)

Section CallerEdges.
Context `{Json} {W : Type} (env : Env W).

(** X8.  The targeted call issues exactly one survey, named
    [plugin_subscribe_stream], addressed to the leader node alone and
    carrying the request made of the user's organization and ID, the
    channel, the leader node ID and the leadership ID; the only other thing
    it does is range over the replies. *)
Theorem CallPluginSubscribeStream_targets_leader (user : SignedInUser)
    (channel leaderNodeID leadershipID : string) (jsonData : bytes) (w : W) :
  Marshal_PluginSubscribeStreamRequest
    {| req_OrgID := OrgId user; req_UserID := UserId user; req_Channel := channel;
       req_LeaderNodeID := leaderNodeID; req_LeadershipID := leadershipID |} = Ok jsonData →
  let o := run env (CallPluginSubscribeStream user channel leaderNodeID leadershipID) w in
  ∃ rest,
    trace o = Called (Survey "plugin_subscribe_stream" jsonData leaderNodeID) :: rest ∧
    (calls rest = [] ∨ calls rest = ["range"]).
Proof.
  intros Hjson o. subst o. unfold CallPluginSubscribeStream. rewrite Hjson. run_simpl.
  destruct (answer env _ w).1; run_simpl; eexists; (split; [done|]); cbn; auto.
Qed.

(** X9.  Before its loop the targeted call fails in two ways: an error of
    [json.Marshal] is returned as it is, without any survey; an error of the
    survey is returned wrapped as "survey error", without looking at any
    reply.  Both come with the zero reply and status. *)
Theorem CallPluginSubscribeStream_early_errors (user : SignedInUser)
    (channel leaderNodeID leadershipID : string) (w : W) :
  let req := {| req_OrgID := OrgId user; req_UserID := UserId user; req_Channel := channel;
                req_LeaderNodeID := leaderNodeID; req_LeadershipID := leadershipID |} in
  let o := run env (CallPluginSubscribeStream user channel leaderNodeID leadershipID) w in
  (∀ err, Marshal_PluginSubscribeStreamRequest req = Err err →
     value o = (SubscribeReply_zero, 0, Some err) ∧ world o = w ∧ trace o = []) ∧
  (∀ jsonData err,
     Marshal_PluginSubscribeStreamRequest req = Ok jsonData →
     (answer env (Survey pluginSubscribeStream jsonData leaderNodeID) w).1 = Err err →
     value o = (SubscribeReply_zero, 0, Some (survey_error err)) ∧ calls (trace o) = ["Survey"]).
Proof.
  intros req o. subst o. unfold CallPluginSubscribeStream. fold req. split.
  - intros err Hjson. by rewrite Hjson.
  - intros jsonData err Hjson Hsurvey. rewrite Hjson. run_simpl. by rewrite Hsurvey.
Qed.

(** X10.  The aggregation call broadcasts: it issues exactly one survey,
    named [managed_streams], with an empty target node ID.  An error of
    [json.Marshal] is returned as it is without any survey, and an error of
    the survey is returned as it is, not wrapped. *)
Theorem CallManagedStreams_broadcasts (orgID : Z) (w : W) :
  let o := run env (CallManagedStreams orgID) w in
  (∀ err, Marshal_NodeManagedChannelsRequest {| OrgID := orgID |} = Err err →
     value o = Err err ∧ world o = w ∧ trace o = []) ∧
  (∀ jsonData, Marshal_NodeManagedChannelsRequest {| OrgID := orgID |} = Ok jsonData →
     (∃ rest, trace o = Called (Survey "managed_streams" jsonData "") :: rest ∧
              "Survey" ∉ calls rest) ∧
     (∀ err, (answer env (Survey managedStreamsCall jsonData "") w).1 = Err err →
        value o = Err err ∧ calls (trace o) = ["Survey"])).
Proof.
  intros o. subst o. unfold CallManagedStreams. split.
  - intros err Hjson. by rewrite Hjson.
  - intros jsonData Hjson. rewrite Hjson. run_simpl. split.
    + eexists. split; [done|].
      repeat (first [case_match | progress run_simpl]); not_called.
    + intros err Hsurvey. by rewrite Hsurvey.
Qed.

Lemma mergeReplies_Ok_inv (replies : list SurveyReply)
    (channels merged : gmap string ManagedChannel) :
  mergeReplies channels replies = Ok merged →
  ∀ r, r ∈ replies →
    Code r = 0 ∧ ∃ res, Unmarshal_NodeManagedChannelsResponse (Data r) = Ok res.
Proof.
  revert channels. induction replies as [| r0 replies IH]; intros channels Hok r Hr;
    [by apply elem_of_nil in Hr|].
  cbn in Hok. case_decide as Hcode; [done|].
  destruct (Unmarshal_NodeManagedChannelsResponse (Data r0)) as [res |] eqn:Hres; [|done].
  apply elem_of_cons in Hr as [-> | Hr]; [|by eapply IH].
  split; [|by exists res]. by destruct (decide (Code r0 = 0)).
Qed.

Lemma mergeReplies_Err_inv (replies : list SurveyReply)
    (channels : gmap string ManagedChannel) (err : error) :
  mergeReplies channels replies = Err err →
  ∃ r, r ∈ replies ∧
    (Code r ≠ 0 ∧ err = unexpected_survey_code (Code r) ∨
     Code r = 0 ∧ Unmarshal_NodeManagedChannelsResponse (Data r) = Err err).
Proof.
  revert channels. induction replies as [| r0 replies IH]; intros channels Herr; [done|].
  cbn in Herr. case_decide as Hcode.
  { injection Herr as <-. exists r0. split; [left|]. by left. }
  destruct (Unmarshal_NodeManagedChannelsResponse (Data r0)) as [res | err0] eqn:Hres.
  - destruct (IH _ Herr) as (r & Hr & Hbad). exists r. split; [by right | done].
  - injection Herr as <-. exists r0. split; [left|]. by right.
Qed.

(** X11.  The aggregation call returns a result only if every reply has
    status 0 and a payload that decodes: one reply with another status or
    with a payload that does not decode keeps the call from succeeding, in
    whatever order the replies are visited.  And once the survey has
    answered, an error that the call returns is the error of one such reply:
    "unexpected survey code" with the code of a reply whose code is not 0,
    or the decoding error of the payload of a reply. *)
Theorem CallManagedStreams_succeeds_only_if (orgID : Z) (jsonData : bytes)
    (resp : gmap string SurveyReply) (w w1 : W) :
  range_ok env →
  Marshal_NodeManagedChannelsRequest {| OrgID := orgID |} = Ok jsonData →
  answer env (Survey managedStreamsCall jsonData "") w = (Ok resp, w1) →
  (∀ result, value (run env (CallManagedStreams orgID) w) = Ok result →
     ∀ nodeID r, resp !! nodeID = Some r →
       Code r = 0 ∧ ∃ res, Unmarshal_NodeManagedChannelsResponse (Data r) = Ok res) ∧
  (∀ err, value (run env (CallManagedStreams orgID) w) = Err err →
     ∃ nodeID r, resp !! nodeID = Some r ∧
       (Code r ≠ 0 ∧ err = unexpected_survey_code (Code r) ∨
        Code r = 0 ∧ Unmarshal_NodeManagedChannelsResponse (Data r) = Err err)).
Proof.
  intros Hrange Hjson Hsurvey.
  rewrite (CallManagedStreams_value _ _ _ _ _ _ Hjson Hsurvey). cbv zeta.
  destruct (mergeReplies ∅ (answer env (Range resp) w1).1.*2) as [merged | err0] eqn:Hmerged.
  - split; [|done]. intros result _ nodeID r Hr.
    apply (mergeReplies_Ok_inv _ _ _ Hmerged).
    apply list_elem_of_fmap. exists (nodeID, r). split; [done|].
    rewrite (Hrange _ resp w1). by apply elem_of_map_to_list.
  - split; [done|]. intros err [= <-].
    destruct (mergeReplies_Err_inv _ _ _ Hmerged) as (r & Hr & Hbad).
    apply list_elem_of_fmap in Hr as ([nodeID r'] & -> & Hr).
    rewrite (Hrange _ resp w1) in Hr. apply elem_of_map_to_list in Hr.
    by exists nodeID, r'.
Qed.

(** X12.  When no node answers, the aggregation call succeeds with an empty
    list, where the targeted call fails with "leader node not responded". *)
Theorem CallManagedStreams_no_replies (orgID : Z) (jsonData : bytes) (w w1 : W) :
  range_ok env →
  Marshal_NodeManagedChannelsRequest {| OrgID := orgID |} = Ok jsonData →
  answer env (Survey managedStreamsCall jsonData "") w = (Ok ∅, w1) →
  value (run env (CallManagedStreams orgID) w) = Ok [].
Proof.
  intros Hrange Hjson Hsurvey.
  rewrite (CallManagedStreams_value _ _ _ _ _ _ Hjson Hsurvey). cbn.
  pose proof (Hrange _ (∅ : gmap string SurveyReply) w1) as Hvisit.
  rewrite map_to_list_empty in Hvisit. apply Permutation_nil_r in Hvisit.
  rewrite Hvisit. cbn.
  pose proof (Hrange _ (∅ : gmap string ManagedChannel)
                (answer env (Range (∅ : gmap string SurveyReply)) w1).2) as Hvalues.
  rewrite map_to_list_empty in Hvalues. apply Permutation_nil_r in Hvalues.
  by rewrite Hvalues.
Qed.
End CallerEdges.

Section AggregateShape.
Context `{Json} {W : Type} (env : Env W).

Lemma byChannel_sorted_names (l : list ManagedChannel) :
  StronglySorted (λ a b, byChannel a b = true) l → NoDup (Channel <$> l).
Proof.
  induction 1 as [| a l Hl IH Ha]; cbn; constructor; [|done].
  intros (b & Hname & Hb)%list_elem_of_fmap.
  rewrite Forall_forall in Ha. specialize (Ha b Hb).
  unfold byChannel in Ha. by rewrite Hname, String_ltb_irrefl in Ha.
Qed.

Lemma elem_of_decoded (ch : ManagedChannel) (replies : list SurveyReply) :
  ch ∈ decoded replies ↔
  ∃ r res, r ∈ replies ∧ Unmarshal_NodeManagedChannelsResponse (Data r) = Ok res ∧
           ch ∈ Channels res.
Proof.
  unfold decoded. rewrite list_elem_of_bind. split.
  - intros (r & Hch & Hr).
    destruct (Unmarshal_NodeManagedChannelsResponse (Data r)) as [res |] eqn:Hres;
      [by exists r, res | by apply elem_of_nil in Hch].
  - intros (r & res & Hr & Hres & Hch). exists r. by rewrite Hres.
Qed.

Lemma elem_of_occurrences (ch : ManagedChannel) (name : string) (l : list ManagedChannel) :
  ch ∈ occurrences name l ↔ Channel ch = name ∧ ch ∈ l.
Proof. unfold occurrences. by rewrite list_elem_of_filter. Qed.

Lemma range_values (resp : gmap string SurveyReply) (w : W) (r : SurveyReply) :
  range_ok env →
  r ∈ (answer env (Range resp) w).1.*2 ↔ ∃ nodeID, resp !! nodeID = Some r.
Proof.
  intros Hrange. rewrite list_elem_of_fmap. split.
  - intros ([n r'] & -> & Hr). exists n. apply elem_of_map_to_list.
    by rewrite <- (Hrange _ resp w).
  - intros [n Hr]. exists (n, r). split; [done|].
    rewrite (Hrange _ resp w). by apply elem_of_map_to_list.
Qed.

(** X13.  In a successful aggregation every channel name reported by some
    node appears in the result exactly once, and no other name appears. *)
Theorem CallManagedStreams_names (orgID : Z) (jsonData : bytes)
    (resp : gmap string SurveyReply) (w w1 : W) :
  range_ok env →
  Marshal_NodeManagedChannelsRequest {| OrgID := orgID |} = Ok jsonData →
  answer env (Survey managedStreamsCall jsonData "") w = (Ok resp, w1) →
  (∀ nodeID r, resp !! nodeID = Some r →
     Code r = 0 ∧ ∃ res, Unmarshal_NodeManagedChannelsResponse (Data r) = Ok res) →
  ∃ result,
    value (run env (CallManagedStreams orgID) w) = Ok result ∧
    NoDup (Channel <$> result) ∧
    ∀ name,
      name ∈ Channel <$> result ↔
      ∃ nodeID r res ch,
        resp !! nodeID = Some r ∧
        Unmarshal_NodeManagedChannelsResponse (Data r) = Ok res ∧
        ch ∈ Channels res ∧ Channel ch = name.
Proof.
  intros Hrange Hjson Hsurvey Hall.
  destruct (CallManagedStreams_merged env orgID jsonData resp w w1 Hrange Hjson Hsurvey Hall)
    as (result & Hvalue & Hsorted & Hocc).
  exists result. split_and!; [done | by apply byChannel_sorted_names |].
  intros name. rewrite list_elem_of_fmap. split.
  - intros (ch & -> & Hch).
    assert (ch ∈ occurrences (Channel ch) result) as Hin by by apply elem_of_occurrences.
    rewrite Hocc in Hin.
    destruct (occurrences (Channel ch) (decoded (answer env (Range resp) w1).1.*2))
      as [| first later] eqn:Hfirst; [by apply elem_of_nil in Hin|].
    assert (first ∈ occurrences (Channel ch) (decoded (answer env (Range resp) w1).1.*2))
      as [Hname (r & res & Hr & Hres & Hmem)%elem_of_decoded]%elem_of_occurrences
      by (rewrite Hfirst; left).
    apply range_values in Hr as [nodeID Hr]; [|done].
    by exists nodeID, r, res, first.
  - intros (nodeID & r & res & ch & Hr & Hres & Hch & Hname).
    assert (ch ∈ occurrences name (decoded (answer env (Range resp) w1).1.*2)) as Hin.
    { apply elem_of_occurrences. split; [done|]. apply elem_of_decoded.
      exists r, res. split_and!; [|done..]. apply range_values; eauto. }
    specialize (Hocc name).
    destruct (occurrences name (decoded (answer env (Range resp) w1).1.*2))
      as [| first later] eqn:Hfirst; [by apply elem_of_nil in Hin|].
    assert (first ∈ occurrences name (decoded (answer env (Range resp) w1).1.*2))
      as [Hfirstname _]%elem_of_occurrences by (rewrite Hfirst; left).
    assert (merged first later ∈ occurrences name result) as [Hm Hmem]%elem_of_occurrences
      by (rewrite Hocc; left).
    exists (merged first later). by rewrite Hm.
Qed.

(** X14.  When no channel name is reported twice, the aggregation loses and
    changes nothing: the result holds exactly the channels of the replies,
    as they were reported. *)
Theorem CallManagedStreams_lossless (orgID : Z) (jsonData : bytes)
    (resp : gmap string SurveyReply) (w w1 : W) :
  range_ok env →
  Marshal_NodeManagedChannelsRequest {| OrgID := orgID |} = Ok jsonData →
  answer env (Survey managedStreamsCall jsonData "") w = (Ok resp, w1) →
  (∀ nodeID r, resp !! nodeID = Some r →
     Code r = 0 ∧ ∃ res, Unmarshal_NodeManagedChannelsResponse (Data r) = Ok res) →
  NoDup (Channel <$> decoded (map_to_list resp).*2) →
  ∃ result,
    value (run env (CallManagedStreams orgID) w) = Ok result ∧
    result ≡ₚ decoded (map_to_list resp).*2.
Proof.
  intros Hrange Hjson Hsurvey Hall Hdistinct.
  destruct (CallManagedStreams_merged env orgID jsonData resp w w1 Hrange Hjson Hsurvey Hall)
    as (result & Hvalue & Hsorted & Hocc).
  exists result. split; [done|].
  assert (decoded (answer env (Range resp) w1).1.*2 ≡ₚ decoded (map_to_list resp).*2) as Hperm.
  { unfold decoded. by rewrite (Hrange _ resp w1). }
  rewrite <- Hperm in Hdistinct |- *.
  set (reported := decoded (answer env (Range resp) w1).1.*2) in *.
  apply NoDup_Permutation;
    [by apply byChannel_sorted_NoDup | by apply NoDup_fmap_1 in Hdistinct |].
  intros ch.
  assert (ch ∈ result ↔ ch ∈ occurrences (Channel ch) result) as ->
    by (rewrite elem_of_occurrences; split; [by intros | by intros [_ ?]]).
  assert (ch ∈ reported ↔ ch ∈ occurrences (Channel ch) reported) as ->
    by (rewrite elem_of_occurrences; split; [by intros | by intros [_ ?]]).
  rewrite Hocc.
  destruct (occurrences_at_most_one reported (Channel ch) Hdistinct) as [-> | [one ->]];
    [done|].
  by rewrite merged_nil.
Qed.
End AggregateShape.

Section TargetedShape.
Context `{Json} {W : Type} (env : Env W).

Lemma subscribeReplies_decides (leaderNodeID : string) (reply : SurveyReply)
    (entries : list (string * SurveyReply)) :
  (leaderNodeID, reply) ∈ entries →
  (∀ nodeID r, (nodeID, r) ∈ entries → Code r = 0) →
  (∀ r, (leaderNodeID, r) ∈ entries → r = reply) →
  subscribeReplies leaderNodeID entries =
    match Unmarshal_PluginSubscribeStreamResponse (Data reply) with
    | Err err => (SubscribeReply_zero, 0, Some err)
    | Ok res => (Reply res, Status res, None)
    end.
Proof.
  intros Hin Hcodes Hleader.
  induction entries as [| [nodeID r] entries IH]; [by apply elem_of_nil in Hin|].
  cbn. rewrite decide_False by (intros Hne; apply Hne, (Hcodes nodeID); left).
  case_decide as Hnode.
  - apply IH.
    + apply elem_of_cons in Hin as [[= -> ->] | Hin]; done.
    + intros n r' Hr'. apply (Hcodes n). by right.
    + intros r' Hr'. apply Hleader. by right.
  - assert (nodeID = leaderNodeID) as -> by (destruct (decide (nodeID = leaderNodeID)); done).
    by rewrite (Hleader r) by left.
Qed.

(** X15.  When every reply has status 0, the outcome of the targeted call
    does not depend on the order in which the replies are visited: it is
    "leader node not responded" if the leader has no reply, and otherwise
    what decoding the leader's payload gives, the decoding error included. *)
Theorem CallPluginSubscribeStream_all_ok (user : SignedInUser)
    (channel leaderNodeID leadershipID : string) (jsonData : bytes)
    (resp : gmap string SurveyReply) (w w1 : W) :
  range_ok env →
  Marshal_PluginSubscribeStreamRequest
    {| req_OrgID := OrgId user; req_UserID := UserId user; req_Channel := channel;
       req_LeaderNodeID := leaderNodeID; req_LeadershipID := leadershipID |} = Ok jsonData →
  answer env (Survey pluginSubscribeStream jsonData leaderNodeID) w = (Ok resp, w1) →
  (∀ nodeID r, resp !! nodeID = Some r → Code r = 0) →
  value (run env (CallPluginSubscribeStream user channel leaderNodeID leadershipID) w) =
    match resp !! leaderNodeID with
    | None => (SubscribeReply_zero, 0, Some (errors_New "leader node not responded"))
    | Some reply =>
        match Unmarshal_PluginSubscribeStreamResponse (Data reply) with
        | Err err => (SubscribeReply_zero, 0, Some err)
        | Ok res => (Reply res, Status res, None)
        end
    end.
Proof.
  intros Hrange Hjson Hsurvey Hcodes.
  rewrite (CallPluginSubscribeStream_value _ _ _ _ _ _ _ _ _ Hjson Hsurvey).
  destruct (resp !! leaderNodeID) as [reply |] eqn:Hleader.
  - apply subscribeReplies_decides.
    + by apply range_elem_of.
    + intros n r Hr%range_elem_of; [|done]. by eapply Hcodes.
    + intros r Hr%range_elem_of; [|done]. congruence.
  - apply subscribeReplies_not_found. intros n r Hr%range_elem_of; [|done].
    split; [by eapply Hcodes | congruence].
Qed.

(** X16.  With a single reply, which is what a survey addressed to one node
    brings back, the targeted call fails with that reply's own code if it
    is not zero, even from another node; else with "leader node not
    responded" if the reply is from another node; else it decodes the
    payload. *)
Theorem CallPluginSubscribeStream_single_reply (user : SignedInUser)
    (channel leaderNodeID leadershipID : string) (jsonData : bytes)
    (nodeID : string) (reply : SurveyReply) (w w1 : W) :
  range_ok env →
  Marshal_PluginSubscribeStreamRequest
    {| req_OrgID := OrgId user; req_UserID := UserId user; req_Channel := channel;
       req_LeaderNodeID := leaderNodeID; req_LeadershipID := leadershipID |} = Ok jsonData →
  answer env (Survey pluginSubscribeStream jsonData leaderNodeID) w =
    (Ok {[ nodeID := reply ]}, w1) →
  value (run env (CallPluginSubscribeStream user channel leaderNodeID leadershipID) w) =
    if decide (Code reply ≠ 0) then
      (SubscribeReply_zero, 0, Some (unexpected_survey_code (Code reply)))
    else if decide (nodeID ≠ leaderNodeID) then
      (SubscribeReply_zero, 0, Some (errors_New "leader node not responded"))
    else
      match Unmarshal_PluginSubscribeStreamResponse (Data reply) with
      | Err err => (SubscribeReply_zero, 0, Some err)
      | Ok res => (Reply res, Status res, None)
      end.
Proof.
  intros Hrange Hjson Hsurvey.
  rewrite (CallPluginSubscribeStream_value _ _ _ _ _ _ _ _ _ Hjson Hsurvey).
  pose proof (Hrange _ ({[ nodeID := reply ]} : gmap string SurveyReply) w1) as Hvisit.
  rewrite map_to_list_singleton in Hvisit. apply Permutation_singleton_r in Hvisit.
  rewrite Hvisit. cbn. by repeat case_decide.
Qed.
End TargetedShape.

(** ** Two runs, two nodes *)

Section OrderIndependence.
Context `{Json} {W1 W2 : Type} (env1 : Env W1) (env2 : Env W2).

Lemma foldl_rate_add_Permutation (l l' : list Rate) :
  Comm (=) rate_add → Assoc (=) rate_add →
  l ≡ₚ l' → ∀ x, foldl rate_add x l = foldl rate_add x l'.
Proof.
  intros Hcomm Hassoc. induction 1 as [| a l l' _ IH | a b l | l l' l'' _ IH1 _ IH2];
    intros x; cbn.
  - done.
  - apply IH.
  - f_equal. by rewrite <- !Hassoc, (Hcomm a b).
  - by rewrite IH1.
Qed.

Lemma foldl_rate_add_first (x y : Rate) (l k : list Rate) :
  Comm (=) rate_add → Assoc (=) rate_add →
  x :: l ≡ₚ y :: k → foldl rate_add x l = foldl rate_add y k.
Proof.
  intros Hcomm Hassoc Hperm.
  assert (x ∈ y :: k) as [-> | Hx]%elem_of_cons by (rewrite <- Hperm; left).
  - apply foldl_rate_add_Permutation; [done..|]. by apply Permutation.Permutation_cons_inv in Hperm.
  - apply elem_of_Permutation in Hx as [k' Hk].
    assert (l ≡ₚ y :: k') as Hl.
    { apply (Permutation.Permutation_cons_inv (a := x)).
      by rewrite Hperm, Hk, Permutation_swap. }
    rewrite (foldl_rate_add_Permutation l (y :: k')), (foldl_rate_add_Permutation k (x :: k'))
      by done.
    cbn. by rewrite (Hcomm x y).
Qed.

(** X17.  When adding rates is commutative and associative, the rates of
    the aggregation do not depend on the order in which the replies are
    visited: two calls that receive the same successful replies return the
    same rate for every channel name outside the reserved prefix. *)
Theorem CallManagedStreams_rates_any_order (orgID : Z) (jsonData : bytes)
    (resp : gmap string SurveyReply) (w1 w1' : W1) (w2 w2' : W2) :
  Comm (=) rate_add → Assoc (=) rate_add →
  range_ok env1 → range_ok env2 →
  Marshal_NodeManagedChannelsRequest {| OrgID := orgID |} = Ok jsonData →
  answer env1 (Survey managedStreamsCall jsonData "") w1 = (Ok resp, w1') →
  answer env2 (Survey managedStreamsCall jsonData "") w2 = (Ok resp, w2') →
  (∀ nodeID r, resp !! nodeID = Some r →
     Code r = 0 ∧ ∃ res, Unmarshal_NodeManagedChannelsResponse (Data r) = Ok res) →
  ∃ result1 result2,
    value (run env1 (CallManagedStreams orgID) w1) = Ok result1 ∧
    value (run env2 (CallManagedStreams orgID) w2) = Ok result2 ∧
    ∀ a b, a ∈ result1 → b ∈ result2 → Channel a = Channel b →
           String.prefix "plugin/testdata/" (Channel a) = false →
           MinuteRate a = MinuteRate b.
Proof.
  intros Hcomm Hassoc Hrange1 Hrange2 Hjson Hsurvey1 Hsurvey2 Hall.
  destruct (CallManagedStreams_merged env1 orgID jsonData resp w1 w1' Hrange1 Hjson Hsurvey1 Hall)
    as (result1 & Hvalue1 & _ & Hocc1).
  destruct (CallManagedStreams_merged env2 orgID jsonData resp w2 w2' Hrange2 Hjson Hsurvey2 Hall)
    as (result2 & Hvalue2 & _ & Hocc2).
  exists result1, result2. split_and!; [done..|].
  intros a b Ha Hb Hname Hprefix.
  set (reported1 := decoded (answer env1 (Range resp) w1').1.*2) in *.
  set (reported2 := decoded (answer env2 (Range resp) w2').1.*2) in *.
  assert (occurrences (Channel a) reported1 ≡ₚ occurrences (Channel a) reported2) as Hperm.
  { unfold occurrences, reported1, reported2, decoded.
    by rewrite (Hrange1 _ resp w1'), (Hrange2 _ resp w2'). }
  assert (a ∈ occurrences (Channel a) result1) as Ha'
    by (unfold occurrences; by rewrite list_elem_of_filter).
  assert (b ∈ occurrences (Channel a) result2) as Hb'
    by (unfold occurrences; by rewrite list_elem_of_filter).
  rewrite Hocc1 in Ha'. rewrite Hocc2 in Hb'.
  destruct (occurrences (Channel a) reported1) as [| f1 later1] eqn:H1;
    [by apply elem_of_nil in Ha'|].
  destruct (occurrences (Channel a) reported2) as [| f2 later2] eqn:H2;
    [by apply elem_of_nil in Hb'|].
  apply list_elem_of_singleton in Ha' as Ha''. apply list_elem_of_singleton in Hb' as Hb''.
  assert (Channel f1 = Channel a) as Hf1 by (by rewrite Ha'', merged_Channel).
  assert (Channel f2 = Channel a) as Hf2 by (by rewrite Hname, Hb'', merged_Channel).
  rewrite Ha'', Hb''. unfold merged. rewrite Hf1, Hf2, Hprefix. cbn.
  apply foldl_rate_add_first; [done..|].
  change (MinuteRate <$> f1 :: later1 ≡ₚ MinuteRate <$> f2 :: later2). by rewrite Hperm.
Qed.
End OrderIndependence.

Section EndToEnd.
Context `{Json} {W L : Type} (caller : Env W) (leader : Env L).

Lemma handleSurvey_replies (c : Caller) (e : SurveyEvent) (l : L) :
  replies (trace (run leader (handleSurvey c e) l)) =
    [match value (run leader (dispatch c e) l) with
     | Err _ => {| Code := 1; Data := [] |}
     | Ok resp =>
         match Marshal_Response resp with
         | Err _ => {| Code := 1; Data := [] |}
         | Ok jsonData => {| Code := 0; Data := jsonData |}
         end
     end].
Proof.
  unfold handleSurvey. rewrite run_bind. cbn [trace value world].
  rewrite replies_app, dispatch_no_reply.
  destruct (value (run leader (dispatch c e) l)) as [resp | err]; [|done].
  by destruct (Marshal_Response resp).
Qed.

(** X18.  A subscribe round trip.  The caller's request is delivered to the
    leader's [handleSurvey], and the reply the leader hands to its callback
    comes back as the only reply, keyed by the leader's node ID.  Then
    whatever makes the leader's handler fail reaches the caller as
    "unexpected survey code: 1" and nothing more; and when the handler
    succeeds and its response survives encoding and decoding, the caller
    returns the handler's reply and status. *)
Theorem subscribe_round_trip (user : SignedInUser)
    (channel leaderNodeID leadershipID : string) (jsonData : bytes)
    (c : Caller) (l : L) (reply : SurveyReply) (w w1 : W) :
  range_ok caller →
  Marshal_PluginSubscribeStreamRequest
    {| req_OrgID := OrgId user; req_UserID := UserId user; req_Channel := channel;
       req_LeaderNodeID := leaderNodeID; req_LeadershipID := leadershipID |} = Ok jsonData →
  replies (trace (run leader
                    (handleSurvey c {| Op := pluginSubscribeStream; Event_Data := jsonData |})
                    l)) = [reply] →
  answer caller (Survey pluginSubscribeStream jsonData leaderNodeID) w =
    (Ok {[ leaderNodeID := reply ]}, w1) →
  let handled := value (run leader (handlePluginSubscribeStream c jsonData) l) in
  let returned :=
    value (run caller (CallPluginSubscribeStream user channel leaderNodeID leadershipID) w) in
  (∀ err, handled = Err err →
     returned = (SubscribeReply_zero, 0, Some (unexpected_survey_code 1))) ∧
  (∀ res encoded, handled = Ok res →
     Marshal_Response (SubscribeAnswer res) = Ok encoded →
     Unmarshal_PluginSubscribeStreamResponse encoded = Ok res →
     returned = (Reply res, Status res, None)).
Proof.
  intros Hrange Hjson Hreply Hsurvey handled returned.
  rewrite handleSurvey_replies, dispatch_value in Hreply. cbn [Op Event_Data] in Hreply.
  rewrite decide_False, decide_True in Hreply by done.
  fold handled in Hreply.
  assert (returned = subscribeReplies leaderNodeID [(leaderNodeID, reply)]) as ->.
  { unfold returned.
    rewrite (CallPluginSubscribeStream_value _ _ _ _ _ _ _ _ _ Hjson Hsurvey).
    pose proof (Hrange _ ({[ leaderNodeID := reply ]} : gmap string SurveyReply) w1) as Hvisit.
    rewrite map_to_list_singleton in Hvisit. apply Permutation_singleton_r in Hvisit.
    by rewrite Hvisit. }
  split.
  - intros err Herr. rewrite Herr in Hreply. injection Hreply as <-. done.
  - intros res encoded Hres Hencoded Hdecoded. rewrite Hres, Hencoded in Hreply.
    injection Hreply as <-. cbn. repeat case_decide; try done. by rewrite Hdecoded.
Qed.

(** X19.  A managed-streams round trip with one node.  The caller's request
    is delivered to the node's [handleSurvey] and the node's reply comes
    back as the only reply.  If the node's runner fails, the caller fails
    with "unexpected survey code: 1".  If the runner returns channels of
    distinct names and request and response survive encoding and decoding,
    the caller returns those channels, sorted by name. *)
Theorem managed_streams_round_trip (orgID : Z) (jsonData : bytes)
    (c : Caller) (l : L) (nodeID : string) (reply : SurveyReply) (w w1 : W) :
  range_ok caller →
  Marshal_NodeManagedChannelsRequest {| OrgID := orgID |} = Ok jsonData →
  Unmarshal_NodeManagedChannelsRequest jsonData = Ok {| OrgID := orgID |} →
  replies (trace (run leader
                    (handleSurvey c {| Op := managedStreamsCall; Event_Data := jsonData |})
                    l)) = [reply] →
  answer caller (Survey managedStreamsCall jsonData "") w = (Ok {[ nodeID := reply ]}, w1) →
  let tracked := (answer leader (GetManagedChannels orgID) l).1 in
  let returned := value (run caller (CallManagedStreams orgID) w) in
  (∀ err, tracked = Err err → returned = Err (unexpected_survey_code 1)) ∧
  (∀ channels encoded, tracked = Ok channels →
     Marshal_Response (ManagedChannelsAnswer {| Channels := channels |}) = Ok encoded →
     Unmarshal_NodeManagedChannelsResponse encoded = Ok {| Channels := channels |} →
     NoDup (Channel <$> channels) →
     ∃ result,
       returned = Ok result ∧ result ≡ₚ channels ∧
       StronglySorted (λ a b, byChannel a b = true) result).
Proof.
  intros Hrange Hjson Hrequest Hreply Hsurvey tracked returned.
  rewrite handleSurvey_replies, dispatch_value in Hreply. cbn [Op Event_Data] in Hreply.
  rewrite decide_True in Hreply by done.
  unfold handleManagedStreams in Hreply. rewrite Hrequest in Hreply.
  revert Hreply. run_simpl. cbn [OrgID]. fold tracked. intros Hreply.
  pose proof (Hrange _ ({[ nodeID := reply ]} : gmap string SurveyReply) w1) as Hvisit.
  rewrite map_to_list_singleton in Hvisit. apply Permutation_singleton_r in Hvisit.
  split.
  - intros err Herr. rewrite Herr in Hreply. cbn in Hreply. injection Hreply as <-.
    unfold returned. rewrite (CallManagedStreams_value _ _ _ _ _ _ Hjson Hsurvey).
    cbn. by rewrite Hvisit.
  - intros channels encoded Hchannels Hencoded Hdecoded Hdistinct.
    rewrite Hchannels in Hreply. cbn in Hreply. rewrite Hencoded in Hreply.
    injection Hreply as <-.
    destruct (CallManagedStreams_merged caller orgID jsonData
                {[ nodeID := {| Code := 0; Data := encoded |} ]} w w1 Hrange Hjson Hsurvey)
      as (result & Hvalue & Hsorted & Hocc).
    { intros n r [<- <-]%lookup_singleton_Some. split; [done|]. eauto. }
    exists result. split_and!; [done| |done].
    assert (decoded [{| Code := 0; Data := encoded |}] = channels) as Hreported.
    { unfold decoded. cbn. by rewrite Hdecoded, app_nil_r. }
    rewrite Hvisit in Hocc. cbn [fmap list_fmap snd] in Hocc. rewrite Hreported in Hocc.
    apply NoDup_Permutation;
      [by apply byChannel_sorted_NoDup | by apply NoDup_fmap_1 in Hdistinct |].
    intros ch.
    assert (∀ k, ch ∈ k ↔ ch ∈ occurrences (Channel ch) k) as Hin.
    { intros k. unfold occurrences. rewrite list_elem_of_filter.
      split; [by intros | by intros [_ ?]]. }
    rewrite (Hin result), (Hin channels), Hocc.
    destruct (occurrences_at_most_one channels (Channel ch) Hdistinct) as [-> | [one ->]];
      [done|].
    by rewrite merged_nil.
Qed.
End EndToEnd.

(** ** The further properties on scripted collaborators *)

Section OnTheScenario.
#[local] Existing Instance Fixture.foreign.

#[local] Existing Instance Scenario.codec.

Lemma Scenario_range_ok (s : Scenario.Script) : range_ok (Scenario.env s).
Proof.
  intros V m w. cbn. destruct (Scenario.backwards s); [apply reverse_Permutation | done].
Qed.

Lemma OnSubscribe_only_when_fenced_witness :
  ∃ req,
    Unmarshal_PluginSubscribeStreamRequest ["016"%byte] = Ok req ∧
    req_LeaderNodeID req = "node-1" ∧
    leader_leadershipID (Scenario.leader (Scenario.script (Ok ∅))) = req_LeadershipID req.
Proof.
  destruct (OnSubscribe_only_when_fenced (Scenario.env (Scenario.script (Ok ∅)))
              {| node_ID := "node-1" |} ["016"%byte] 0%nat)
    as (req & Hreq & Hself & _ & _ & Htoken).
  - apply (bool_decide_unpack _). vm_compute. exact I.
  - exists req. split_and!; [exact Hreq | exact Hself | exact Htoken].
Defined.

Lemma handlePluginSubscribeStream_protocol_witness :
  let calls_of s data :=
    calls (trace (run (Scenario.env s)
                    (handlePluginSubscribeStream {| node_ID := "node-1" |} data) 0%nat)) in
  calls_of (Scenario.script (Ok ∅)) ["018"%byte] =
    ["GetLeader"; "Dispatch"; "GetChannelHandler"; "OnSubscribe"] ∧
  calls_of (Scenario.script (Ok ∅)) ["016"%byte] =
    ["GetLeader"; "GetChannelHandler"; "OnSubscribe"] ∧
  calls_of Scenario.without_leader_manager ["018"%byte] = ["GetLeader"] ∧
  calls_of Scenario.without_bus ["018"%byte] = ["GetLeader"; "Dispatch"] ∧
  calls_of Scenario.without_channel_handler ["018"%byte] =
    ["GetLeader"; "Dispatch"; "GetChannelHandler"] ∧
  calls_of Scenario.without_channel_handler ["016"%byte] = ["GetLeader"; "GetChannelHandler"] ∧
  calls_of (Scenario.script (Ok ∅)) ["099"%byte] = [].
Proof.
  intros calls_of. subst calls_of. cbv beta.
  split_and!;
    (etrans; [exact (proj1 (proj2 (handlePluginSubscribeStream_protocol
                                     (Scenario.env _) {| node_ID := "node-1" |} _ 0%nat)))
             | reflexivity]).
Defined.

Lemma handlePluginSubscribeStream_leader_error_witness :
  let o := run (Scenario.env Scenario.without_leader_manager)
             (handlePluginSubscribeStream {| node_ID := "node-1" |} ["016"%byte]) 0%nat in
  value o = Err (errors_New "error checking leader") ∧ calls (trace o) = ["GetLeader"].
Proof.
  intros o.
  destruct (handlePluginSubscribeStream_leader_error
              (Scenario.env Scenario.without_leader_manager) {| node_ID := "node-1" |} 0%nat
              ["016"%byte] (Fixture.subscribe_request 0 "lease-7")
              (errors_New "context deadline exceeded"))
    as (Hvalue & _ & Hcalls); [vm_compute; reflexivity | reflexivity..|].
  split; [exact Hvalue | exact Hcalls].
Defined.

Lemma handlePluginSubscribeStream_identified_witness :
  let o := run (Scenario.env Scenario.without_bus)
             (handlePluginSubscribeStream {| node_ID := "node-1" |} ["018"%byte]) 0%nat in
  value o = Err (errors_New "error getting signed in user") ∧ world o = 2%nat.
Proof.
  intros o.
  destruct (handlePluginSubscribeStream_identified
              (Scenario.env Scenario.without_bus) {| node_ID := "node-1" |} 0%nat
              ["018"%byte] (Fixture.subscribe_request 5 "lease-7"))
    as (Hfails & _);
    [vm_compute; reflexivity | reflexivity | reflexivity | reflexivity | reflexivity
    | vm_compute; reflexivity |].
  destruct (Hfails (errors_New "user not found")) as (Hvalue & Hworld & _); [reflexivity|].
  split; [exact Hvalue | exact Hworld].
Defined.

Lemma handlePluginSubscribeStream_unresolved_witness :
  let o := run (Scenario.env Scenario.without_channel_handler)
             (handlePluginSubscribeStream {| node_ID := "node-1" |} ["016"%byte]) 0%nat in
  value o = Err (errors_New "unknown scope") ∧ "OnSubscribe" ∉ calls (trace o).
Proof.
  intros o.
  destruct (handlePluginSubscribeStream_unresolved
              (Scenario.env Scenario.without_channel_handler) {| node_ID := "node-1" |} 0%nat
              ["016"%byte] (Fixture.subscribe_request 0 "lease-7")
              (Some {| UserId := 0; OrgId := 1; user_fields := UserFields_zero |}) 1%nat
              (errors_New "unknown scope"))
    as (Hvalue & _ & Hcalls);
    [vm_compute; reflexivity | reflexivity | reflexivity | reflexivity | reflexivity
    | left; split_and!; [vm_compute; discriminate | reflexivity | reflexivity]
    | reflexivity |].
  split; [exact Hvalue | exact Hcalls].
Defined.

Lemma handlePluginSubscribeStream_subscribes_witness :
  let o := run (Scenario.env (Scenario.script (Ok ∅)))
             (handlePluginSubscribeStream {| node_ID := "node-1" |} ["018"%byte]) 0%nat in
  value o = Ok {| Status := 0; Reply := Fixture.joined |} ∧ world o = 4%nat.
Proof.
  intros o.
  destruct (handlePluginSubscribeStream_subscribes
              (Scenario.env (Scenario.script (Ok ∅))) {| node_ID := "node-1" |} 0%nat
              ["018"%byte] (Fixture.subscribe_request 5 "lease-7")
              Scenario.admin 2%nat
              "testdata" ("plugin", "testdata", "foo"))
    as (_ & Hworld & Hvalue);
    [vm_compute; reflexivity | reflexivity | reflexivity | reflexivity | reflexivity
    | right; split; [vm_compute; reflexivity | reflexivity]
    | reflexivity |].
  split; [exact Hvalue | exact Hworld].
Defined.

Lemma handleSurvey_rejects_quietly_witness :
  trace (run (Scenario.env (Scenario.script (Ok ∅)))
           (handleSurvey {| node_ID := "node-1" |}
              {| Op := "managed_streams"; Event_Data := ["099"%byte] |}) 0%nat) =
    [Called (Callback {| Code := 1; Data := [] |})].
Proof.
  apply (handleSurvey_rejects_quietly (Scenario.env (Scenario.script (Ok ∅)))
           {| node_ID := "node-1" |}
           {| Op := "managed_streams"; Event_Data := ["099"%byte] |} 0%nat).
  right; left. split; [reflexivity|]. eexists. vm_compute. reflexivity.
Defined.

Lemma CallPluginSubscribeStream_targets_leader_witness :
  ∃ rest,
    trace (run (Scenario.env (Scenario.script (Ok ∅)))
             (CallPluginSubscribeStream {| UserId := 0; OrgId := 1; user_fields := UserFields_zero |}
                "plugin/testdata/foo" "node-1" "lease-7") 0%nat) =
      Called (Survey "plugin_subscribe_stream" ["016"%byte] "node-1") :: rest.
Proof.
  destruct (CallPluginSubscribeStream_targets_leader (Scenario.env (Scenario.script (Ok ∅)))
              {| UserId := 0; OrgId := 1; user_fields := UserFields_zero |}
              "plugin/testdata/foo" "node-1" "lease-7" ["016"%byte] 0%nat)
    as (rest & Htrace & _); [reflexivity|].
  exists rest. exact Htrace.
Defined.

Lemma CallPluginSubscribeStream_early_errors_witness :
  run (Scenario.env (Scenario.script (Ok ∅)))
    (CallPluginSubscribeStream (H0 := Scenario.json true)
       {| UserId := 0; OrgId := 1; user_fields := UserFields_zero |}
       "plugin/testdata/foo" "node-1" "lease-7") 0%nat =
    {| value := (SubscribeReply_zero, 0%Z, Some (errors_New "json: unsupported value"));
       world := 0%nat; trace := [] |}.
Proof.
  destruct (CallPluginSubscribeStream_early_errors (H0 := Scenario.json true)
              (Scenario.env (Scenario.script (Ok ∅)))
              {| UserId := 0; OrgId := 1; user_fields := UserFields_zero |}
              "plugin/testdata/foo" "node-1" "lease-7" 0%nat) as [Hmarshal _].
  destruct (Hmarshal (errors_New "json: unsupported value")) as (Hvalue & Hworld & Htrace);
    [reflexivity|].
  revert Hvalue Hworld Htrace.
  destruct (run _ _ _) as [v n tr]. cbn. by intros -> -> ->.
Defined.

Lemma CallManagedStreams_broadcasts_witness :
  ∃ rest,
    trace (run (Scenario.env (Scenario.script (Ok ∅))) (CallManagedStreams 1) 0%nat) =
      Called (Survey "managed_streams" ["001"%byte] "") :: rest ∧
    "Survey" ∉ calls rest.
Proof.
  destruct (CallManagedStreams_broadcasts (Scenario.env (Scenario.script (Ok ∅))) 1 0%nat)
    as [_ Hsurvey].
  destruct (Hsurvey ["001"%byte]) as [(rest & Htrace & Honce) _]; [reflexivity|].
  exists rest. split; [exact Htrace | exact Honce].
Defined.

Lemma Scenario_survey (peers : list (string * SurveyReply)) (nodeID : string) (r : SurveyReply) :
  (list_to_map peers : gmap string SurveyReply) !! nodeID = Some r → (nodeID, r) ∈ peers.
Proof. apply elem_of_list_to_map_2. Qed.

Lemma CallManagedStreams_succeeds_only_if_witness :
  let peers := [("node-1", {| Code := 0; Data := ["010"%byte] |});
                ("node-2", {| Code := 0; Data := ["013"%byte] |})] in
  ¬ ∃ result,
      value (run (Scenario.env (Scenario.script (Ok (list_to_map peers))))
               (CallManagedStreams 1) 0%nat) = Ok result.
Proof.
  intros peers [result Hvalue].
  destruct (CallManagedStreams_succeeds_only_if
              (Scenario.env (Scenario.script (Ok (list_to_map peers))))
              1 ["001"%byte] (list_to_map peers) 0%nat 1%nat) as [Honly _].
  - apply Scenario_range_ok.
  - reflexivity.
  - reflexivity.
  - destruct (Honly result Hvalue "node-2" {| Code := 0; Data := ["013"%byte] |})
      as (_ & res & Hres); [reflexivity | discriminate Hres].
Defined.

Lemma CallManagedStreams_no_replies_witness :
  value (run (Scenario.env (Scenario.script (Ok ∅))) (CallManagedStreams 1) 0%nat) = Ok [].
Proof.
  apply (CallManagedStreams_no_replies (Scenario.env (Scenario.script (Ok ∅)))
           1 ["001"%byte] 0%nat 1%nat).
  - apply Scenario_range_ok.
  - reflexivity.
  - reflexivity.
Defined.

Lemma CallManagedStreams_names_witness :
  let peers := [("node-1", {| Code := 0; Data := ["010"%byte] |});
                ("node-2", {| Code := 0; Data := ["011"%byte] |})] in
  ∃ result,
    value (run (Scenario.env (Scenario.script (Ok (list_to_map peers))))
             (CallManagedStreams 1) 0%nat) = Ok result ∧
    NoDup (Channel <$> result) ∧
    "x/b" ∈ Channel <$> result.
Proof.
  intros peers.
  destruct (CallManagedStreams_names (Scenario.env (Scenario.script (Ok (list_to_map peers))))
              1 ["001"%byte] (list_to_map peers) 0%nat 1%nat)
    as (result & Hvalue & Hnodup & Hnames).
  - apply Scenario_range_ok.
  - reflexivity.
  - reflexivity.
  - intros nodeID r Hr%Scenario_survey.
    repeat (apply elem_of_cons in Hr as [[= -> ->] | Hr];
            [split; [reflexivity | eexists; reflexivity]|]).
    by apply elem_of_nil in Hr.
  - exists result. split_and!; [exact Hvalue | exact Hnodup |].
    apply Hnames.
    exists "node-2", {| Code := 0; Data := ["011"%byte] |},
      {| Channels := [Fixture.channel "x/a" 2; Fixture.channel "x/b" 5] |},
      (Fixture.channel "x/b" 5).
    split_and!; [reflexivity | reflexivity | | reflexivity].
    cbn. right. left.
Defined.

Lemma CallManagedStreams_lossless_witness :
  let peers := [("node-1", {| Code := 0; Data := ["010"%byte] |});
                ("node-3", {| Code := 0; Data := ["012"%byte] |})] in
  ∃ result,
    value (run (Scenario.env (Scenario.script (Ok (list_to_map peers))))
             (CallManagedStreams 1) 0%nat) = Ok result ∧
    result ≡ₚ decoded (map_to_list (list_to_map peers : gmap string SurveyReply)).*2.
Proof.
  intros peers.
  destruct (CallManagedStreams_lossless (Scenario.env (Scenario.script (Ok (list_to_map peers))))
              1 ["001"%byte] (list_to_map peers) 0%nat 1%nat)
    as (result & Hvalue & Hperm).
  - apply Scenario_range_ok.
  - reflexivity.
  - reflexivity.
  - intros nodeID r Hr%Scenario_survey.
    repeat (apply elem_of_cons in Hr as [[= -> ->] | Hr];
            [split; [reflexivity | eexists; reflexivity]|]).
    by apply elem_of_nil in Hr.
  - apply (bool_decide_unpack _). vm_compute. exact I.
  - exists result. split; [exact Hvalue | exact Hperm].
Defined.

Lemma CallPluginSubscribeStream_all_ok_witness :
  let peers := [("node-1", {| Code := 0; Data := ["077"%byte] |});
                ("node-2", {| Code := 0; Data := [] |})] in
  value (run (Scenario.env (Scenario.reversed (Scenario.script (Ok (list_to_map peers)))))
           (CallPluginSubscribeStream {| UserId := 0; OrgId := 1; user_fields := UserFields_zero |}
              "plugin/testdata/foo" "node-1" "lease-7") 0%nat) =
    (SubscribeReply_zero, 0%Z, Some (errors_New "unexpected end of JSON input")).
Proof.
  intros peers.
  rewrite (CallPluginSubscribeStream_all_ok
             (Scenario.env (Scenario.reversed (Scenario.script (Ok (list_to_map peers)))))
             {| UserId := 0; OrgId := 1; user_fields := UserFields_zero |}
             "plugin/testdata/foo" "node-1" "lease-7" ["016"%byte] (list_to_map peers)
             0%nat 1%nat).
  - vm_compute. reflexivity.
  - apply Scenario_range_ok.
  - reflexivity.
  - reflexivity.
  - intros nodeID r Hr%Scenario_survey.
    repeat (apply elem_of_cons in Hr as [[= -> ->] | Hr]; [reflexivity|]).
    by apply elem_of_nil in Hr.
Defined.

Lemma CallPluginSubscribeStream_single_reply_witness :
  value (run (Scenario.env (Scenario.script (Ok {[ "node-2" := {| Code := 7; Data := [] |} ]})))
           (CallPluginSubscribeStream {| UserId := 0; OrgId := 1; user_fields := UserFields_zero |}
              "plugin/testdata/foo" "node-1" "lease-7") 0%nat) =
    (SubscribeReply_zero, 0%Z, Some (unexpected_survey_code 7)).
Proof.
  rewrite (CallPluginSubscribeStream_single_reply
             (Scenario.env (Scenario.script (Ok {[ "node-2" := {| Code := 7; Data := [] |} ]})))
             {| UserId := 0; OrgId := 1; user_fields := UserFields_zero |}
             "plugin/testdata/foo" "node-1" "lease-7" ["016"%byte]
             "node-2" {| Code := 7; Data := [] |} 0%nat 1%nat).
  - reflexivity.
  - apply Scenario_range_ok.
  - reflexivity.
  - reflexivity.
Defined.

Lemma int64_add_comm : Comm (=) (rate_add (Foreign := Fixture.foreign)).
Proof. intros a b. cbn. by rewrite Z.add_comm. Qed.

Lemma int64_add_assoc : Assoc (=) (rate_add (Foreign := Fixture.foreign)).
Proof.
  intros a b c. cbn. unfold Fixture.int64. f_equal.
  replace (a + ((b + c + 2 ^ 63) `mod` 2 ^ 64 - 2 ^ 63) + 2 ^ 63)%Z
    with (a + (b + c + 2 ^ 63) `mod` 2 ^ 64)%Z by lia.
  replace ((a + b + 2 ^ 63) `mod` 2 ^ 64 - 2 ^ 63 + c + 2 ^ 63)%Z
    with ((a + b + 2 ^ 63) `mod` 2 ^ 64 + c)%Z by lia.
  rewrite Zplus_mod_idemp_r, Zplus_mod_idemp_l. f_equal. lia.
Qed.

Lemma CallManagedStreams_rates_any_order_witness :
  let peers := [("node-1", {| Code := 0; Data := ["010"%byte] |});
                ("node-2", {| Code := 0; Data := ["011"%byte] |})] in
  let forwards := Scenario.script (Ok (list_to_map peers)) in
  ∃ result1 result2,
    value (run (Scenario.env forwards) (CallManagedStreams 1) 0%nat) = Ok result1 ∧
    value (run (Scenario.env (Scenario.reversed forwards)) (CallManagedStreams 1) 0%nat) =
      Ok result2 ∧
    ∀ a b, a ∈ result1 → b ∈ result2 → Channel a = Channel b →
           String.prefix "plugin/testdata/" (Channel a) = false →
           MinuteRate a = MinuteRate b.
Proof.
  intros peers forwards.
  apply (CallManagedStreams_rates_any_order (Scenario.env forwards)
           (Scenario.env (Scenario.reversed forwards)) 1 ["001"%byte] (list_to_map peers)
           0%nat 1%nat 0%nat 1%nat).
  - apply int64_add_comm.
  - apply int64_add_assoc.
  - apply Scenario_range_ok.
  - apply Scenario_range_ok.
  - reflexivity.
  - reflexivity.
  - reflexivity.
  - intros nodeID r Hr%Scenario_survey.
    repeat (apply elem_of_cons in Hr as [[= -> ->] | Hr];
            [split; [reflexivity | eexists; reflexivity]|]).
    by apply elem_of_nil in Hr.
Defined.

Lemma subscribe_round_trip_witness :
  let user := {| UserId := 0; OrgId := 1; user_fields := UserFields_zero |} in
  let reply := {| Code := 0; Data := ["032"%byte] |} in
  replies (trace (run (Scenario.env (Scenario.script (Ok ∅)))
                    (handleSurvey {| node_ID := "node-1" |}
                       {| Op := pluginSubscribeStream; Event_Data := ["016"%byte] |})
                    0%nat)) = [reply] ∧
  value (run (Scenario.env (Scenario.script (Ok {[ "node-1" := reply ]})))
           (CallPluginSubscribeStream user "plugin/testdata/foo" "node-1" "lease-7") 0%nat) =
    (Fixture.joined, 0%Z, None).
Proof.
  intros user reply.
  assert (replies (trace (run (Scenario.env (Scenario.script (Ok ∅)))
                            (handleSurvey {| node_ID := "node-1" |}
                               {| Op := pluginSubscribeStream; Event_Data := ["016"%byte] |})
                            0%nat)) = [reply]) as Hreply by (vm_compute; reflexivity).
  split; [exact Hreply|].
  destruct (subscribe_round_trip
              (Scenario.env (Scenario.script (Ok {[ "node-1" := reply ]})))
              (Scenario.env (Scenario.script (Ok ∅)))
              user "plugin/testdata/foo" "node-1" "lease-7" ["016"%byte]
              {| node_ID := "node-1" |} 0%nat reply 0%nat 1%nat)
    as [_ Hsuccess].
  - apply Scenario_range_ok.
  - reflexivity.
  - exact Hreply.
  - reflexivity.
  - apply (Hsuccess {| Status := 0; Reply := Fixture.joined |} ["032"%byte]);
      reflexivity.
Defined.

Lemma managed_streams_round_trip_witness :
  let reply := {| Code := 0; Data := ["048"%byte] |} in
  ∃ result,
    value (run (Scenario.env (Scenario.script (Ok {[ "node-2" := reply ]})))
             (CallManagedStreams 1) 0%nat) = Ok result ∧
    result ≡ₚ Scenario.tracked ∧
    StronglySorted (λ a b, byChannel a b = true) result.
Proof.
  intros reply.
  destruct (managed_streams_round_trip
              (Scenario.env (Scenario.script (Ok {[ "node-2" := reply ]})))
              (Scenario.env (Scenario.script (Ok ∅)))
              1 ["001"%byte] {| node_ID := "node-2" |} 0%nat "node-2" reply 0%nat 1%nat)
    as [_ Hsuccess].
  - apply Scenario_range_ok.
  - reflexivity.
  - reflexivity.
  - reflexivity.
  - reflexivity.
  - apply (Hsuccess Scenario.tracked ["048"%byte]).
    + reflexivity.
    + reflexivity.
    + reflexivity.
    + apply (bool_decide_unpack _). vm_compute. exact I.
Defined.
End OnTheScenario.

(** ** The canvas layer tree *)

Section CanvasTree.
Import Canvas.
Context (selection : option (list string)) (selectedColor : option string).

Lemma ElementState_nested_ind (P : ElementState → Prop) :
  (∀ uid name, P (Element uid name)) →
  (∀ uid name elements, Forall P elements → P (Frame uid name elements)) →
  ∀ item, P item.
Proof.
  intros Hleaf Hframe. fix IH 1. intros [uid name | uid name elements].
  - apply Hleaf.
  - apply Hframe. induction elements as [| item elements IHelements]; constructor.
    + apply IH.
    + exact IHelements.
Qed.

Lemma element_children (item : ElementState) :
  children (element selection selectedColor item) =
    match item with
    | Frame _ _ elements => Some (loop selection selectedColor elements)
    | Element _ _ => None
    end.
Proof.
  by destruct item.
Qed.

Lemma element_fields (item : ElementState) :
  key (element selection selectedColor item) = UID item ∧
  title (element selection selectedColor item) = getName item ∧
  selectable (element selection selectedColor item) = Some true ∧
  dataRef (element selection selectedColor item) = item ∧
  style (element selection selectedColor item) =
    if isItemSelected item selection then Some {| backgroundColor := selectedColor |}
    else None.
Proof. by destruct item. Qed.

Lemma subtree_children (n : TreeElement) :
  subtree n = n :: match children n with Some nodes => all_nodes nodes | None => [] end.
Proof.
  destruct n as [k t s [nodes |] d st]; [|done]. cbn. by f_equal.
Qed.

Lemma descendants_elements (item : ElementState) :
  descendants item =
    item :: match item with
            | Frame _ _ elements => all_elements elements
            | Element _ _ => []
            end.
Proof.
  destruct item as [uid name | uid name elements]; [done|]. cbn. by f_equal.
Qed.

Lemma all_nodes_loop (elements : list ElementState) :
  all_nodes (loop selection selectedColor elements) ≡ₚ
  elements ≫= λ item, subtree (element selection selectedColor item).
Proof.
  induction elements as [| item elements IH]; [done|].
  cbn. unfold all_nodes in *. rewrite bind_app, IH. cbn.
  rewrite app_nil_r. apply Permutation_app_comm.
Qed.

Lemma loop_dataRef (elements : list ElementState) :
  dataRef <$> loop selection selectedColor elements = reverse elements.
Proof.
  induction elements as [| item elements IH]; [done|].
  rewrite reverse_cons. cbn [loop]. rewrite fmap_app, IH. cbn [fmap list_fmap].
  by destruct (element_fields item) as (_ & _ & _ & -> & _).
Qed.

(** Every node of the tree of a list of elements is the node of one of
    the elements or lies in the tree of a frame among them. *)
Lemma all_nodes_forall (P : TreeElement → Prop) (elements : list ElementState) :
  Forall (λ item, Forall P (subtree (element selection selectedColor item))) elements →
  Forall P (all_nodes (loop selection selectedColor elements)).
Proof.
  intros Hall. rewrite all_nodes_loop. apply Forall_forall.
  intros n (item & Hn & Hitem)%list_elem_of_bind.
  rewrite Forall_forall in Hall. specialize (Hall item Hitem).
  rewrite Forall_forall in Hall. by apply Hall.
Qed.

Lemma subtree_forall (P : TreeElement → Prop) :
  (∀ item, P (element selection selectedColor item)) →
  ∀ item, Forall P (subtree (element selection selectedColor item)).
Proof.
  intros Hnode. apply ElementState_nested_ind.
  - intros uid name. rewrite subtree_children, element_children.
    constructor; [apply Hnode | constructor].
  - intros uid name elements IH. rewrite subtree_children, element_children.
    constructor; [apply Hnode | by apply all_nodes_forall].
Qed.

(** X20.  The layer tree mirrors the scene at every depth: the nodes of
    the root, and the children of the node of every frame, are the elements
    of that frame in reverse order, each node pointing to its element; the
    node of an element that is not a frame has no [children] field. *)
Theorem getTreeData_mirrors (root : FrameState) :
  dataRef <$> getTreeData selection selectedColor (Some root) = reverse (elements root) ∧
  ∀ n, n ∈ all_nodes (getTreeData selection selectedColor (Some root)) →
       match dataRef n with
       | Frame _ _ elements =>
           ∃ nodes, children n = Some nodes ∧ dataRef <$> nodes = reverse elements
       | Element _ _ => children n = None
       end.
Proof.
  split; [apply loop_dataRef|].
  apply Forall_forall. apply all_nodes_forall, Forall_forall.
  intros item _. apply subtree_forall. clear. intros item.
  destruct (element_fields item) as (_ & _ & _ & -> & _). rewrite element_children.
  destruct item as [uid name | uid name elements]; [done|].
  eexists. split; [done|]. apply loop_dataRef.
Qed.

(** X21.  Every node, at any depth, takes its key and title from the UID
    and name of its element and is selectable; it is highlighted, with the
    selected colour, exactly when the selection contains its title, and no
    node is highlighted when there is no selection. *)
Theorem getTreeData_highlights (root : FrameState) (n : TreeElement) :
  n ∈ all_nodes (getTreeData selection selectedColor (Some root)) →
  key n = UID (dataRef n) ∧ title n = getName (dataRef n) ∧ selectable n = Some true ∧
  ((style n = Some {| backgroundColor := selectedColor |} ∧
    ∃ names, selection = Some names ∧ title n ∈ names) ∨
   (style n = None ∧ ∀ names, selection = Some names → title n ∉ names)).
Proof.
  revert n. apply Forall_forall. apply all_nodes_forall, Forall_forall.
  intros item _. apply subtree_forall. clear. intros item.
  destruct (element_fields item) as (-> & -> & -> & -> & ->).
  split_and!; [done..|]. unfold isItemSelected.
  destruct selection as [names |]; [|right; by split].
  case_bool_decide; [left | right]; (split; [done|]); [by exists names | by intros ? [= <-]].
Qed.

(** X22.  The tree loses and repeats nothing: the elements that the nodes
    of the tree point to, at all depths together, are the elements of the
    scene, each once. *)
Theorem getTreeData_complete (root : FrameState) :
  dataRef <$> all_nodes (getTreeData selection selectedColor (Some root)) ≡ₚ
  all_elements (elements root).
Proof.
  cbn.
  assert (∀ item, dataRef <$> subtree (element selection selectedColor item) ≡ₚ
                  descendants item) as Hitem.
  { apply ElementState_nested_ind.
    - intros uid name. by rewrite subtree_children, element_children.
    - intros uid name elements IH.
      rewrite subtree_children, element_children, descendants_elements. cbn.
      apply Permutation_skip. rewrite all_nodes_loop. clear -IH.
      induction IH as [| item elements Hitem _ IH]; [done|].
      cbn. unfold all_elements in *. cbn. by rewrite fmap_app, Hitem, IH. }
  rewrite all_nodes_loop. induction (elements root) as [| item elements IH]; [done|].
  unfold all_elements in *. cbn. by rewrite fmap_app, Hitem, IH.
Qed.
End CanvasTree.

Section OnAScene.
Import Canvas.

Lemma getTreeData_mirrors_witness :
  let root := {| frame_UID := 0; frame_name := "root";
                 elements := [Element 1 "a"; Frame 2 "f" [Element 3 "b"; Element 4 "c"]] |} in
  key <$> getTreeData (Some ["b"]) (Some "blue") (Some root) = [2; 1]%Z ∧
  dataRef <$> getTreeData (Some ["b"]) (Some "blue") (Some root) = reverse (elements root).
Proof.
  intros root.
  destruct (getTreeData_mirrors (Some ["b"]) (Some "blue") root) as [Htop _].
  split; [reflexivity | exact Htop].
Defined.

Lemma getTreeData_highlights_witness :
  let root := {| frame_UID := 0; frame_name := "root";
                 elements := [Element 1 "a"; Frame 2 "f" [Element 3 "b"; Element 4 "c"]] |} in
  let n := Node 3 "b" (Some true) None (Element 3 "b") (Some {| backgroundColor := Some "blue" |}) in
  n ∈ all_nodes (getTreeData (Some ["b"]) (Some "blue") (Some root)) ∧
  key n = 3%Z ∧ title n = "b".
Proof.
  intros root n.
  assert (n ∈ all_nodes (getTreeData (Some ["b"]) (Some "blue") (Some root))) as Hn.
  { vm_compute. repeat constructor. }
  destruct (getTreeData_highlights (Some ["b"]) (Some "blue") root n Hn) as (Hkey & Htitle & _).
  split_and!; [exact Hn | exact Hkey | exact Htitle].
Defined.
End OnAScene.
